(** * Broadster-Live: a shallow embedding of [server.js]

    [server.js] is a Node.js relay: at start-up it reads its configuration
    from the environment, then serves one WebSocket endpoint (a session with
    the generative backend per browser connection) and one HTTP endpoint,
    [POST /api/suggest].

    The embedding follows the source top to bottom.  JavaScript strings are
    sequences of UTF-16 code units, JavaScript values are the values that
    [express.json()] can put into [req.body], and every call that leaves the
    process (console, process, sockets, HTTP response, backend SDK) is
    recorded as an [Effect] in the order in which the source performs it. *)

From Stdlib Require Import ZArith NArith List Ascii String DecimalString Lia.
From stdpp Require Import base option list gmap strings.

Import ListNotations.
Local Open Scope N_scope.
Set Warnings "-register-all".

(** ** JavaScript strings *)

Module JsStr.

(** A JavaScript string: its UTF-16 code units. *)
Definition jsstring : Type := list N.

(** Source literals are written in this file as UTF-8 text; [code_points]
    decodes the bytes of such a literal and [utf16] re-encodes the scalar
    values as UTF-16, which is what the engine holds for the literal. *)
Fixpoint code_points (bs : list N) : list N :=
  match bs with
  | [] => []
  | b0 :: t0 =>
    if b0 <? 0x80 then b0 :: code_points t0
    else
      match t0 with
      | [] => []
      | b1 :: t1 =>
        if b0 <? 0xE0 then
          N.lor (N.shiftl (N.land b0 0x1F) 6) (N.land b1 0x3F) :: code_points t1
        else
          match t1 with
          | [] => []
          | b2 :: t2 =>
            if b0 <? 0xF0 then
              N.lor (N.shiftl (N.land b0 0x0F) 12)
                (N.lor (N.shiftl (N.land b1 0x3F) 6) (N.land b2 0x3F))
                :: code_points t2
            else
              match t2 with
              | [] => []
              | b3 :: t3 =>
                N.lor (N.shiftl (N.land b0 0x07) 18)
                  (N.lor (N.shiftl (N.land b1 0x3F) 12)
                     (N.lor (N.shiftl (N.land b2 0x3F) 6) (N.land b3 0x3F)))
                  :: code_points t3
              end
          end
      end
  end.

Definition code_units (cp : N) : list N :=
  if cp <? 0x10000 then [cp]
  else
    let v := cp - 0x10000 in
    [0xD800 + N.shiftr v 10; 0xDC00 + N.land v 0x3FF].

Fixpoint bytes_of (s : string) : list N :=
  match s with
  | EmptyString => []
  | String a rest => N_of_ascii a :: bytes_of rest
  end.

Definition utf16 (s : string) : jsstring :=
  flat_map code_units (code_points (bytes_of s)).

(** ECMAScript WhiteSpace and LineTerminator code points, the characters
    that [String.prototype.trim] strips.  All of them are single code
    units. *)
Definition is_white_space (c : N) : bool :=
  (c =? 0x0009) || (c =? 0x000A) || (c =? 0x000B) || (c =? 0x000C) ||
  (c =? 0x000D) || (c =? 0x0020) || (c =? 0x00A0) || (c =? 0x1680) ||
  ((0x2000 <=? c) && (c <=? 0x200A)) ||
  (c =? 0x2028) || (c =? 0x2029) || (c =? 0x202F) || (c =? 0x205F) ||
  (c =? 0x3000) || (c =? 0xFEFF).

Fixpoint trimStart (s : jsstring) : jsstring :=
  match s with
  | [] => []
  | c :: rest => if is_white_space c then trimStart rest else s
  end.

Definition trimEnd (s : jsstring) : jsstring :=
  reverse (trimStart (reverse s)).

(** [String.prototype.trim]. *)
Definition trim (s : jsstring) : jsstring := trimEnd (trimStart s).

(** [s.includes(t)]: [t] occurs in [s] as a contiguous run of code units. *)
Fixpoint starts_with (t s : jsstring) : bool :=
  match t, s with
  | [], _ => true
  | _ :: _, [] => false
  | a :: t', b :: s' => (a =? b) && starts_with t' s'
  end.

Fixpoint includes (s t : jsstring) : bool :=
  starts_with t s ||
  match s with
  | [] => false
  | _ :: s' => includes s' t
  end.

End JsStr.
Import JsStr.

(** ** JavaScript values, errors and completions *)

Module Js.

(** A number, carried by what the server can observe of it.  The server
    does no arithmetic: it tests a number for truthiness, prints it in a
    template literal and nothing else.  So a number is given by whether it is
    [+0], [-0] or [NaN] (the numbers [ToBoolean] finds falsy), whether it is
    finite, and the text that [Number::toString] gives for it: [0] for both
    zeros, [42], [0.5], [1e+21], [Infinity]. *)
Record Number : Type := mkNumber {
  is_zero_or_NaN : bool;
  is_finite : bool;
  Number_toString : jsstring
}.

(** The values a handler of this server can meet: [undefined] (a missing
    property) and the JSON values produced by [express.json()].  A
    [JsObject] lists the own properties of a plain object in creation order,
    keys distinct. *)
Inductive JsValue : Type :=
| JsUndefined
| JsNull
| JsBool (b : bool)
| JsNumber (x : Number)
| JsString (s : jsstring)
| JsArray (elems : list JsValue)
| JsObject (props : list (jsstring * JsValue)).

(** An [Error] instance, as thrown by the engine or rejected by the SDK. *)
Record JsError : Type := mkError { error_name : jsstring; error_message : jsstring }.

(** The outcome of evaluating an expression: a value, or a thrown error. *)
Inductive Completion (A : Type) : Type :=
| Normal (a : A)
| Throw (e : JsError).
Arguments Normal {A} a.
Arguments Throw {A} e.

Definition TypeError (msg : string) : JsError :=
  mkError (utf16 "TypeError") (utf16 msg).

Definition ReferenceError (msg : string) : JsError :=
  mkError (utf16 "ReferenceError") (utf16 msg).

(** [ToBoolean]: the falsy values are [undefined], [null], [false], the
    zeros and [NaN], and the empty string. *)
Definition ToBoolean (v : JsValue) : bool :=
  match v with
  | JsUndefined | JsNull => false
  | JsBool b => b
  | JsNumber x => negb (is_zero_or_NaN x)
  | JsString s => match s with [] => false | _ :: _ => true end
  | JsArray _ | JsObject _ => true
  end.

Fixpoint own_property (key : jsstring) (props : list (jsstring * JsValue))
  : option JsValue :=
  match props with
  | [] => None
  | (k, v) :: rest => if decide (k = key) then Some v else own_property key rest
  end.

(** [ToString], as applied by a template literal.  A plain object inherits
    [Object.prototype.toString] unless it has an own property [toString];
    such a property of a parsed JSON object is never callable, and then
    [valueOf] returns the object itself, so the conversion throws.  An array
    is joined with commas, [null] and [undefined] elements printing as the
    empty string. *)
Fixpoint ToString (v : JsValue) : Completion jsstring :=
  match v with
  | JsUndefined => Normal (utf16 "undefined")
  | JsNull => Normal (utf16 "null")
  | JsBool true => Normal (utf16 "true")
  | JsBool false => Normal (utf16 "false")
  | JsNumber x => Normal (Number_toString x)
  | JsString s => Normal s
  | JsArray elems =>
    (fix join (l : list JsValue) : Completion jsstring :=
       match l with
       | [] => Normal []
       | x :: rest =>
         let element :=
           match x with
           | JsUndefined | JsNull => Normal []
           | _ => ToString x
           end in
         match element with
         | Throw e => Throw e
         | Normal sx =>
           match rest with
           | [] => Normal sx
           | _ :: _ =>
             match join rest with
             | Throw e => Throw e
             | Normal sr => Normal (sx ++ utf16 "," ++ sr)
             end
           end
         end
       end) elems
  | JsObject props =>
    match own_property (utf16 "toString") props with
    | Some _ => Throw (TypeError "Cannot convert object to primitive value")
    | None => Normal (utf16 "[object Object]")
    end
  end.

(** [v[key]] for a key that no prototype defines (the server reads only
    [text]): an own property of an object, [undefined] on any other value
    that can be dereferenced, a [TypeError] on [null] and [undefined]. *)
Definition Get (v : JsValue) (key : jsstring) : Completion JsValue :=
  match v with
  | JsUndefined =>
    Throw (mkError (utf16 "TypeError")
             (utf16 "Cannot read properties of undefined (reading '" ++ key ++ utf16 "')"))
  | JsNull =>
    Throw (mkError (utf16 "TypeError")
             (utf16 "Cannot read properties of null (reading '" ++ key ++ utf16 "')"))
  | JsObject props =>
    match own_property key props with
    | Some x => Normal x
    | None => Normal JsUndefined
    end
  | _ => Normal JsUndefined
  end.

End Js.
Import Js.

(** ** [JSON.stringify] *)

Module Json.

Definition hex_digit (n : N) : N :=
  if n <? 10 then 48 + n else 87 + n.

(** [UnicodeEscape]: a backslash, [u] and four lower-case hex digits. *)
Definition unicode_escape (c : N) : jsstring :=
  [0x5C; 0x75;
   hex_digit (N.land (N.shiftr c 12) 0xF); hex_digit (N.land (N.shiftr c 8) 0xF);
   hex_digit (N.land (N.shiftr c 4) 0xF); hex_digit (N.land c 0xF)].

Definition is_high_surrogate (c : N) : bool := (0xD800 <=? c) && (c <=? 0xDBFF).
Definition is_low_surrogate (c : N) : bool := (0xDC00 <=? c) && (c <=? 0xDFFF).

Definition quote_unit (c : N) : jsstring :=
  if c =? 0x08 then [0x5C; 0x62]
  else if c =? 0x09 then [0x5C; 0x74]
  else if c =? 0x0A then [0x5C; 0x6E]
  else if c =? 0x0C then [0x5C; 0x66]
  else if c =? 0x0D then [0x5C; 0x72]
  else if c =? 0x22 then [0x5C; 0x22]
  else if c =? 0x5C then [0x5C; 0x5C]
  else if (c <? 0x20) || is_low_surrogate c then unicode_escape c
  else [c].

Fixpoint quote_units (s : jsstring) : jsstring :=
  match s with
  | [] => []
  | c :: rest =>
    if is_high_surrogate c then
      match rest with
      | d :: rest' =>
        if is_low_surrogate d then c :: d :: quote_units rest'
        else unicode_escape c ++ quote_units rest
      | [] => unicode_escape c
      end
    else quote_unit c ++ quote_units rest
  end.

(** [QuoteJSONString]. *)
Definition QuoteJSONString (s : jsstring) : jsstring :=
  [0x22] ++ quote_units s ++ [0x22].

Fixpoint join_with (sep : jsstring) (l : list jsstring) : jsstring :=
  match l with
  | [] => []
  | [x] => x
  | x :: rest => x ++ sep ++ join_with sep rest
  end.

(** [SerializeJSONProperty] without replacer or indentation; [None] is
    [undefined]. *)
Fixpoint serialize (v : JsValue) : option jsstring :=
  match v with
  | JsUndefined => None
  | JsNull => Some (utf16 "null")
  | JsBool true => Some (utf16 "true")
  | JsBool false => Some (utf16 "false")
  | JsNumber x => Some (if is_finite x then Number_toString x else utf16 "null")
  | JsString s => Some (QuoteJSONString s)
  | JsArray elems =>
    Some (utf16 "[" ++
          join_with (utf16 ",")
            ((fix items (l : list JsValue) : list jsstring :=
                match l with
                | [] => []
                | x :: rest =>
                  match serialize x with
                  | Some sx => sx :: items rest
                  | None => utf16 "null" :: items rest
                  end
                end) elems)
          ++ utf16 "]")
  | JsObject props =>
    Some (utf16 "{" ++
          join_with (utf16 ",")
            ((fix members (l : list (jsstring * JsValue)) : list jsstring :=
                match l with
                | [] => []
                | (k, x) :: rest =>
                  match serialize x with
                  | Some sx => (QuoteJSONString k ++ utf16 ":" ++ sx) :: members rest
                  | None => members rest
                  end
                end) props)
          ++ utf16 "}")
  end.

Definition JSON_stringify (v : JsValue) : JsValue :=
  match serialize v with
  | Some s => JsString s
  | None => JsUndefined
  end.

End Json.
Import Json.

(** ** Effects and the handler monad *)

Module Eff.

(** What the process does to the outside, in source order. *)
Inductive Effect : Type :=
| ConsoleLog (msg : jsstring)
| ConsoleError (msg : jsstring) (err : option JsError)
| ProcessExit (code : Z)
| NewVertexAI (project location credentials : JsValue)
| ServerListen (port : JsValue)
| StartChat
| SendMessageStream (msg : jsstring)
| GenerateContent (model prompt : jsstring)
| WsSend (data : JsValue)
| WsClose (code : option Z)
| HttpResponse (status : Z) (body : JsValue).

(** A handler body over a mutable state [S]: it leaves a state, a trace of
    effects and a completion.  A thrown error keeps the state and the trace
    produced so far. *)
Definition Js (S A : Type) : Type := S → S * list Effect * Completion A.

#[global] Instance Js_ret {S} : MRet (Js S) :=
  λ A a s, (s, [], Normal a).

#[global] Instance Js_bind {S} : MBind (Js S) :=
  λ A B f m s,
    match m s with
    | (s1, t1, Normal a) =>
      match f a s1 with
      | (s2, t2, r) => (s2, t1 ++ t2, r)
      end
    | (s1, t1, Throw e) => (s1, t1, Throw e)
    end.

Definition emit {S} (e : Effect) : Js S unit :=
  λ s, (s, [e], Normal tt).

Definition lift {S A} (c : Completion A) : Js S A :=
  λ s, (s, [], c).

Definition get_state {S} : Js S S :=
  λ s, (s, [], Normal s).

Definition modify {S} (f : S → S) : Js S unit :=
  λ s, (f s, [], Normal tt).

(** [try { body } catch (error) { handler error }]. *)
Definition try_catch {S A} (body : Js S A) (handler : JsError → Js S A) : Js S A :=
  λ s,
    match body s with
    | (s1, t1, Throw e) =>
      match handler e s1 with
      | (s2, t2, r) => (s2, t1 ++ t2, r)
      end
    | r => r
    end.

Definition trace {S A} (r : S * list Effect * Completion A) : list Effect := snd (fst r).
Definition final {S A} (r : S * list Effect * Completion A) : S := fst (fst r).
Definition completion {S A} (r : S * list Effect * Completion A) : Completion A := snd r.

End Eff.
Import Eff.

(** ** The backend SDK, as the server sees it *)

Module Sdk.

(** The response shape of [@google-cloud/vertexai]; every field the server
    dereferences may be absent at run time. *)
Record Part : Type := mkPart { text : option jsstring }.
Record Content : Type := mkContent { parts : option (list Part) }.
Record Candidate : Type := mkCandidate { content : option Content }.
Record GenerateContentResponse : Type :=
  mkResponse { candidates : option (list Candidate) }.
Record GenerateContentResult : Type :=
  mkResult { response : GenerateContentResponse }.

(** What the awaited SDK calls settle to.  The backend is outside the
    process: each handler is run against an arbitrary [Backend]. *)
Record Backend : Type := mkBackend {
  startChat_outcome : Completion unit;
  sendMessageStream_outcome : jsstring → Completion unit;
  generateContent_outcome : jsstring → jsstring → Completion GenerateContentResult
}.

(** [vertex_ai.getGenerativeModel({ model: name })] builds a local handle
    and performs no request. *)
Definition getGenerativeModel (name : string) : jsstring := utf16 name.

Definition startChat {S} (backend : Backend) : Js S unit :=
  emit StartChat;; lift (startChat_outcome backend).

Definition sendMessageStream {S} (backend : Backend) (msg : jsstring) : Js S unit :=
  emit (SendMessageStream msg);; lift (sendMessageStream_outcome backend msg).

Definition generateContent {S} (backend : Backend) (model prompt : jsstring)
  : Js S GenerateContentResult :=
  emit (GenerateContent model prompt);;
  lift (generateContent_outcome backend model prompt).

(** [o.name] where [o] may be [undefined]. *)
Definition member {A B} (name : string) (o : option A) (f : A → B) : Completion B :=
  match o with
  | Some a => Normal (f a)
  | None =>
    Throw (TypeError ("Cannot read properties of undefined (reading '" ++ name ++ "')"))
  end.

(** [o?.name]. *)
Definition optional {A B} (o : option A) (f : A → option B) : option B :=
  match o with
  | Some a => f a
  | None => None
  end.

(** The effects that are requests to the backend. *)
Definition is_backend_call (e : Effect) : bool :=
  match e with
  | StartChat | SendMessageStream _ | GenerateContent _ _ => true
  | _ => false
  end.

Definition backend_calls (t : list Effect) : list Effect :=
  filter (λ e, is_backend_call e = true) t.

End Sdk.
Import Sdk.

(** ** Start-up (lines 7 to 37 and 105 to 108) *)

Module Startup.

(** [process.env.NAME]: a string, or [undefined]. *)
Definition env_get (env : gmap string jsstring) (name : string) : JsValue :=
  match env !! name with
  | Some s => JsString s
  | None => JsUndefined
  end.

(** [a || b]. *)
Definition js_or (a b : JsValue) : JsValue :=
  if ToBoolean a then a else b.

Definition PROJECT_ID (env : gmap string jsstring) : JsValue :=
  env_get env "GOOGLE_PROJECT_ID".

Definition LOCATION (env : gmap string jsstring) : JsValue :=
  js_or (env_get env "GOOGLE_LOCATION") (JsString (utf16 "asia-northeast1")).

Definition CREDENTIALS_JSON (env : gmap string jsstring) : JsValue :=
  env_get env "GOOGLE_CREDENTIALS_JSON".

(** The number literal [3000]. *)
Definition default_port : Number := mkNumber false true (utf16 "3000").

Definition PORT (env : gmap string jsstring) : JsValue :=
  js_or (env_get env "PORT") (JsNumber default_port).

Definition config_diagnostic : jsstring :=
  utf16 "エラー: 環境変数 (GOOGLE_PROJECT_ID, GOOGLE_CREDENTIALS_JSON) が設定されていません。".

(** The module body.  [process.exit(1)] does not return, so what follows the
    configuration check runs only in the other branch.  [JSON_parse] is the
    engine's parser; when it throws, the exception is uncaught and the
    module body stops there.  [listening] is what [server.listen(PORT)] comes
    to: the port is bound and the callback of lines 106 to 108 runs, or the
    call fails (a port out of range is thrown at once, a busy port is an
    [error] event without a listener) and the callback never runs. *)
Definition main (JSON_parse : jsstring → Completion JsValue)
    (listening : JsValue → Completion unit)
    (env : gmap string jsstring) : Js unit unit :=
  if negb (ToBoolean (PROJECT_ID env)) || negb (ToBoolean (CREDENTIALS_JSON env)) then
    emit (ConsoleError config_diagnostic None);;
    emit (ProcessExit 1)
  else
    text ← lift (ToString (CREDENTIALS_JSON env));
    credentials ← lift (JSON_parse text);
    emit (NewVertexAI (PROJECT_ID env) (LOCATION env) credentials);;
    emit (ServerListen (PORT env));;
    lift (listening (PORT env));;
    port ← lift (ToString (PORT env));
    emit (ConsoleLog (utf16 "Broadster-Live サーバー起動中 (Port: " ++ port ++ utf16 ")")).

Definition is_listen (e : Effect) : bool :=
  match e with
  | ServerListen _ => true
  | _ => false
  end.

End Startup.
Import Startup.

(** ** [POST /api/suggest] (lines 87 to 103) *)

Module Suggest.

Definition prompt_prefix : jsstring :=
  utf16 "あなたは優秀なラジオ番組の放送作家です。以下のトーク内容を踏まえ、次に盛り上がる話題のアイデアを3つ提案してください。# トーク内容: "
  ++ [0x22].

Definition prompt_suffix : jsstring :=
  [0x22] ++ utf16 " # 次の話題の提案:".

Definition res_status_json {S} (status : Z) (body : JsValue) : Js S unit :=
  emit (HttpResponse status body).

(** [res.json(body)]: the status stays at its default, 200. *)
Definition res_json {S} (body : JsValue) : Js S unit :=
  emit (HttpResponse 200 body).

Definition error_body (msg : jsstring) : JsValue :=
  JsObject [(utf16 "error", JsString msg)].

Definition suggestion_body (s : jsstring) : JsValue :=
  JsObject [(utf16 "suggestion", JsString s)].

(** [r.candidates[0].content.parts[0].text], each step throwing on
    [undefined]. *)
Definition first_text (r : GenerateContentResponse) : Completion (option jsstring) :=
  match member "0" (candidates r) head with
  | Throw e => Throw e
  | Normal c0 =>
    match member "content" c0 content with
    | Throw e => Throw e
    | Normal ct =>
      match member "parts" ct parts with
      | Throw e => Throw e
      | Normal ps =>
        match member "0" ps head with
        | Throw e => Throw e
        | Normal p0 => member "text" p0 text
        end
      end
    end
  end.

(** The template literal of line 93 around the converted [text]. *)
Definition the_prompt (embedded : jsstring) : jsstring :=
  prompt_prefix ++ embedded ++ prompt_suffix.

(** The one request the handler makes. *)
Definition the_call (embedded : jsstring) : Effect :=
  GenerateContent (getGenerativeModel "gemini-2.5-flash") (the_prompt embedded).

(** The handler, run on the parsed request body [req.body]. *)
Definition suggest (backend : Backend) (body : JsValue) : Js unit unit :=
  transcript ← lift (Get body (utf16 "text"));
  if negb (ToBoolean transcript) then
    res_status_json 400 (error_body (utf16 "No text"))
  else
    let suggestionModel := getGenerativeModel "gemini-2.5-flash" in
    embedded ← lift (ToString transcript);
    let prompt := the_prompt embedded in
    try_catch
      (result ← generateContent backend suggestionModel prompt;
       suggestion ← lift (first_text (response result));
       trimmed ← lift (member "trim" suggestion trim);
       res_json (suggestion_body trimmed))
      (λ error,
         emit (ConsoleError (utf16 "話題提案AIエラー:") (Some error));;
         res_status_json 500 (error_body (error_message error))).

(** The run of a request that reached the backend and was answered 500. *)
Definition failed_run (embedded : jsstring) (e : JsError)
  : unit * list Effect * Completion unit :=
  (tt, [the_call embedded;
        ConsoleError (utf16 "話題提案AIエラー:") (Some e);
        HttpResponse 500 (error_body (error_message e))], Normal tt).

(** The HTTP responses written by a run. *)
Definition responses (t : list Effect) : list (Z * JsValue) :=
  omap (λ e, match e with HttpResponse st b => Some (st, b) | _ => None end) t.

End Suggest.
Import Suggest.

(** ** The WebSocket relay (lines 39 to 85) *)

Module Relay.

(** [ws.readyState], as the [ws] package sets it: 0 connecting, 1 open,
    2 closing, 3 closed. *)
Definition WebSocket_OPEN : Z := 1.
Definition WebSocket_CLOSING : Z := 2.
Definition WebSocket_CLOSED : Z := 3.

(** The global scope of the runtime, as far as the server reads it.  Line 3
    imports only [WebSocketServer], so the bare [WebSocket] of line 56 is
    looked up in the global scope: Node.js defines a global [WebSocket]
    class from version 22 on, earlier versions define none. *)
Record Runtime : Type := mkRuntime { has_global_WebSocket : bool }.

(** [WebSocket.OPEN] as line 56 evaluates it: the constant 1 of the global
    class, or a [ReferenceError] when the identifier is not defined. *)
Definition global_WebSocket_OPEN (rt : Runtime) : Completion Z :=
  if has_global_WebSocket rt then Normal WebSocket_OPEN
  else Throw (ReferenceError "WebSocket is not defined").

(** The anonymous async function that reads [geminiStream.stream]. *)
Inductive LoopState : Type := NotStarted | Running | Finished.

(** What one connection owns: the socket's state, which listeners the
    handler has registered on it, and the state of the reading loop. *)
Record Session : Type := mkSession {
  readyState : Z;
  message_listener : bool;
  close_listener : bool;
  downstream : LoopState
}.

(** The socket as [wss] hands it to the connection handler. *)
Definition accepted : Session := mkSession WebSocket_OPEN false false NotStarted.

Definition set_readyState (z : Z) (s : Session) : Session :=
  mkSession z (message_listener s) (close_listener s) (downstream s).
Definition set_message_listener (s : Session) : Session :=
  mkSession (readyState s) true (close_listener s) (downstream s).
Definition set_close_listener (s : Session) : Session :=
  mkSession (readyState s) (message_listener s) true (downstream s).
Definition set_downstream (l : LoopState) (s : Session) : Session :=
  mkSession (readyState s) (message_listener s) (close_listener s) l.

(** [ws.send(data)] on an open socket. *)
Definition ws_send (data : JsValue) : Js Session unit :=
  emit (WsSend data).

(** What [close] does to the socket: an open one starts closing. *)
Definition closing (s : Session) : Session :=
  if (readyState s =? WebSocket_OPEN)%Z then set_readyState WebSocket_CLOSING s else s.

(** [ws.close()]: no code, no reason. *)
Definition ws_close : Js Session unit :=
  emit (WsClose None);;
  modify closing.

(** What the outside does to a session after the connection handler ran:
    the browser sends a frame or goes away, the backend stream yields an
    item, ends, or fails. *)
Inductive Input : Type :=
| BrowserFrame (message : list N)
| BrowserClose
| StreamYield (item : GenerateContentResponse)
| StreamDone
| StreamThrow (error : JsError).

(** [item.candidates?.[0]?.content?.parts?.[0]?.text]. *)
Definition optional_text (item : GenerateContentResponse) : option jsstring :=
  optional (optional (optional (optional (optional (candidates item) head) content) parts) head) text.

Definition of_optional (o : option jsstring) : JsValue :=
  match o with
  | Some s => JsString s
  | None => JsUndefined
  end.

Definition transcript_message (transcript : JsValue) : JsValue :=
  JsObject [(utf16 "type", JsString (utf16 "transcript")); (utf16 "data", transcript)].

(** The body of the [for await] loop (lines 54 to 59). *)
Definition forward (rt : Runtime) (item : GenerateContentResponse) : Js Session unit :=
  if ToBoolean (of_optional (optional_text item)) then
    transcript ← lift (first_text item);
    s ← get_state;
    open ← lift (global_WebSocket_OPEN rt);
    if (readyState s =? open)%Z then
      ws_send (JSON_stringify (transcript_message (of_optional transcript)))
    else mret tt
  else mret tt.

(** The [catch] of the reading loop (lines 61 to 63); the function returns
    after it. *)
Definition stream_failed (error : JsError) : Js Session unit :=
  emit (ConsoleError (utf16 "Geminiストリーム受信エラー:") (Some error));;
  modify (set_downstream Finished).

(** The [message] listener (lines 67 to 78): its body holds comments only. *)
Definition on_message (message : list N) : Js Session unit :=
  mret tt.

(** The [close] listener (line 84). *)
Definition on_close : Js Session unit :=
  emit (ConsoleLog (utf16 "クライアントが切断しました。")).

(** The connection handler (lines 40 to 85). *)
Definition on_connection (backend : Backend) : Js Session unit :=
  emit (ConsoleLog (utf16 "クライアント (ブラウザ) が接続しました。"));;
  try_catch
    (startChat backend;;
     emit (ConsoleLog (utf16 "Gemini Live API との接続を開始しました。"));;
     sendMessageStream backend [];;
     modify (set_downstream Running);;
     modify set_message_listener)
    (λ error,
       emit (ConsoleError (utf16 "Gemini Live APIとの接続エラー:") (Some error));;
       ws_close);;
  modify set_close_listener.

(** One event delivered to the session. *)
Definition step (rt : Runtime) (i : Input) : Js Session unit :=
  s ← get_state;
  match i with
  | BrowserFrame message =>
    if message_listener s then on_message message else mret tt
  | BrowserClose =>
    modify (set_readyState WebSocket_CLOSED);;
    if close_listener s then on_close else mret tt
  | StreamYield item =>
    match downstream s with
    | Running => try_catch (forward rt item) stream_failed
    | _ => mret tt
    end
  | StreamDone =>
    match downstream s with
    | Running => modify (set_downstream Finished)
    | _ => mret tt
    end
  | StreamThrow error =>
    match downstream s with
    | Running => stream_failed error
    | _ => mret tt
    end
  end.

Fixpoint run (rt : Runtime) (inputs : list Input) : Js Session unit :=
  match inputs with
  | [] => mret tt
  | i :: rest => step rt i;; run rt rest
  end.

(** The frames sent to the browser, and the close calls, of a trace. *)
Definition ws_sends (t : list Effect) : list JsValue :=
  omap (λ e, match e with WsSend d => Some d | _ => None end) t.

Definition ws_closes (t : list Effect) : list (option Z) :=
  omap (λ e, match e with WsClose c => Some c | _ => None end) t.

End Relay.
Import Relay.

(** ** Reference notions and concrete backends *)

Module Scenarios.

(** [t] is [s] with the white space at its two ends removed: what
    "trimmed" means, stated without reference to [trim]. *)
Definition stripped (s t : jsstring) : Prop :=
  (∃ l r, s = l ++ t ++ r
          ∧ Forall (λ c, is_white_space c = true) l
          ∧ Forall (λ c, is_white_space c = true) r)
  ∧ (∀ c, head t = Some c → is_white_space c = false)
  ∧ (∀ c, last t = Some c → is_white_space c = false).

(** The text an item carries: that of the first part of its first
    candidate, when there is one and it is not empty. *)
Definition carried_text (item : GenerateContentResponse) : option jsstring :=
  match optional_text item with
  | Some (c :: t) => Some (c :: t)
  | _ => None
  end.

(** The frame [{"type":"transcript","data": <text>}], written out. *)
Definition transcript_frame (t : jsstring) : JsValue :=
  JsString (utf16 "{" ++ [0x22] ++ utf16 "type" ++ [0x22] ++ utf16 ":"
            ++ [0x22] ++ utf16 "transcript" ++ [0x22] ++ utf16 ","
            ++ [0x22] ++ utf16 "data" ++ [0x22] ++ utf16 ":"
            ++ QuoteJSONString t ++ utf16 "}").

(** The items yielded by the backend stream among the events of a session. *)
Definition yielded (inputs : list Input) : list GenerateContentResponse :=
  omap (λ i, match i with StreamYield item => Some item | _ => None end) inputs.

(** A response with one candidate holding one text part. *)
Definition text_response (t : jsstring) : GenerateContentResponse :=
  mkResponse (Some [mkCandidate (Some (mkContent (Some [mkPart (Some t)])))]).

(** A response without candidates, as sent for a blocked prompt. *)
Definition blocked_response : GenerateContentResponse := mkResponse None.

(** The backend session could not be opened: [startChat] or the first
    [sendMessageStream] was rejected. *)
Definition connect_fails (backend : Backend) : Prop :=
  (∃ e, startChat_outcome backend = Throw e)
  ∨ (∃ e, sendMessageStream_outcome backend [] = Throw e).

(** Traffic between browser and backend: a frame to the browser, or a
    request to the backend. *)
Definition is_forwarding (e : Effect) : bool :=
  match e with
  | WsSend _ => true
  | _ => is_backend_call e
  end.

(** A backend on which every call succeeds, completions answering [t]. *)
Definition answering (t : jsstring) : Backend :=
  mkBackend (Normal tt) (λ _, Normal tt) (λ _ _, Normal (mkResult (text_response t))).

(** A backend on which every call is rejected with [e]. *)
Definition rejecting (e : JsError) : Backend :=
  mkBackend (Throw e) (λ _, Throw e) (λ _ _, Throw e).

(** A backend that opens a chat but rejects the first stream request. *)
Definition rejecting_stream (e : JsError) : Backend :=
  mkBackend (Normal tt) (λ _, Throw e) (λ _ _, Throw e).

(** A backend whose completions come back without candidates. *)
Definition blocking : Backend :=
  mkBackend (Normal tt) (λ _, Normal tt) (λ _ _, Normal (mkResult blocked_response)).

Definition quota_error : JsError :=
  mkError (utf16 "ClientError") (utf16 "429 Too Many Requests").

(** The session that the connection handler leaves on a backend that
    answers. *)
Definition active : Session :=
  final (on_connection (answering (utf16 "x")) accepted).

(** A stream item without candidates, as sent for usage metadata. *)
Definition empty_item : GenerateContentResponse := mkResponse (Some []).

(** The number zero, and a finite number other than zero given by its
    text. *)
Definition zero : Number := mkNumber true true (utf16 "0").
Definition number (text : string) : Number := mkNumber false true (utf16 text).

(** A runtime with the global [WebSocket] class, and one without. *)
Definition node22 : Runtime := mkRuntime true.
Definition node20 : Runtime := mkRuntime false.

(** A port that is bound, and a port that is in use. *)
Definition binds (port : JsValue) : Completion unit := Normal tt.
Definition in_use (port : JsValue) : Completion unit :=
  Throw (mkError (utf16 "Error") (utf16 "listen EADDRINUSE: address already in use")).

(** An environment with every setting but the region. *)
Definition sample_env : gmap string jsstring :=
  <["GOOGLE_PROJECT_ID" := utf16 "broadster"]>
    (<["GOOGLE_CREDENTIALS_JSON" := utf16 "{}"]> ∅).

(** A parser that accepts the text [{}] and rejects everything else. *)
Definition parse_empty_object (t : jsstring) : Completion JsValue :=
  if decide (t = utf16 "{}") then Normal (JsObject [])
  else Throw (mkError (utf16 "SyntaxError") (utf16 "Unexpected token")).

End Scenarios.
Import Scenarios.

(** ** Observations on traces and event sequences *)

Module Observations.

(** The events that are frames from the browser. *)
Definition is_frame (i : Input) : bool :=
  match i with
  | BrowserFrame _ => true
  | _ => false
  end.

(** The events of a session without the frames sent by the browser. *)
Definition drop_frames (inputs : list Input) : list Input :=
  filter (λ i, is_frame i = false) inputs.

(** The effects that are [console.error] calls. *)
Definition is_console_error (e : Effect) : bool :=
  match e with
  | ConsoleError _ _ => true
  | _ => false
  end.

(** The code units of a frame handed to [ws.send]. *)
Definition frame_units (data : JsValue) : jsstring :=
  match data with
  | JsString u => u
  | _ => []
  end.

(** The 400 answer of line 90, as a complete run. *)
Definition rejected_run : unit * list Effect * Completion unit :=
  (tt, [HttpResponse 400 (error_body (utf16 "No text"))], Normal tt).

(** The run of a request answered 200 with suggestion [t0], trimmed. *)
Definition answered_run (embedded t0 : jsstring) : unit * list Effect * Completion unit :=
  (tt, [the_call embedded; HttpResponse 200 (suggestion_body (trim t0))], Normal tt).

(** Every run of the handler has one of four shapes. *)
Inductive SuggestShape (body : JsValue) : unit * list Effect * Completion unit → Prop :=
| shape_thrown (e : JsError) :
    Get body (utf16 "text") = Throw e
    ∨ (∃ v, Get body (utf16 "text") = Normal v ∧ ToBoolean v = true
            ∧ ToString v = Throw e) →
    SuggestShape body (tt, [], Throw e)
| shape_rejected (v : JsValue) :
    Get body (utf16 "text") = Normal v → ToBoolean v = false →
    SuggestShape body rejected_run
| shape_failed (v : JsValue) (embedded : jsstring) (e : JsError) :
    Get body (utf16 "text") = Normal v → ToBoolean v = true →
    ToString v = Normal embedded →
    SuggestShape body (failed_run embedded e)
| shape_answered (v : JsValue) (embedded t0 : jsstring) :
    Get body (utf16 "text") = Normal v → ToBoolean v = true →
    ToString v = Normal embedded →
    SuggestShape body (answered_run embedded t0).

End Observations.
Import Observations.

Arguments utf16 : simpl never.

(** Runs the monad's plumbing, leaving the source-level operations to the
    rewriting of the proof at hand. *)
Ltac js_run :=
  cbv [mbind mret Js_bind Js_ret try_catch generateContent startChat
       sendMessageStream res_status_json res_json ws_send emit lift get_state
       modify trace final completion fst snd];
  cbn [app].

(** ** Sanity checks of the embedding *)

Example utf16_ascii : utf16 "No text" = [78; 111; 32; 116; 101; 120; 116].
Proof. reflexivity. Qed.

Example utf16_kana : utf16 "エラー" = [0x30A8; 0x30E9; 0x30FC].
Proof. reflexivity. Qed.

Example trim_example :
  trim (utf16 "  a b
 ") = utf16 "a b".
Proof. reflexivity. Qed.

Example ToString_array :
  ToString (JsArray [JsNumber (number "-12"); JsNull; JsObject []; JsBool true])
  = Normal (utf16 "-12,,[object Object],true").
Proof. reflexivity. Qed.

Example ToString_zero : ToString (JsNumber zero) = Normal (utf16 "0").
Proof. reflexivity. Qed.

Example ToString_shadowed :
  ToString (JsObject [(utf16 "toString", JsNumber (number "1"))])
  = Throw (TypeError "Cannot convert object to primitive value").
Proof. reflexivity. Qed.

Example stringify_transcript :
  JSON_stringify
    (JsObject [(utf16 "type", JsString (utf16 "transcript"));
               (utf16 "data", JsString (utf16 "こん\にちは") )])
  = JsString (utf16 "{" ++ [0x22] ++ utf16 "type" ++ [0x22] ++ utf16 ":" ++ [0x22]
              ++ utf16 "transcript" ++ [0x22] ++ utf16 "," ++ [0x22] ++ utf16 "data"
              ++ [0x22] ++ utf16 ":" ++ [0x22] ++ utf16 "こん\\にちは" ++ [0x22] ++ utf16 "}").
Proof. reflexivity. Qed.

Example stringify_lone_surrogate :
  JSON_stringify (JsString [0xD83D; 0xDE00; 0xD83D; 0x0A])
  = JsString ([0x22; 0xD83D; 0xDE00] ++ utf16 "\ud83d\n" ++ [0x22]).
Proof. reflexivity. Qed.

Example suggest_answers :
  suggest (answering (utf16 " 天気の話  ")) (JsObject [(utf16 "text", JsString (utf16 "hi"))]) tt
  = (tt, [the_call (utf16 "hi"); HttpResponse 200 (suggestion_body (utf16 "天気の話"))],
     Normal tt).
Proof. vm_compute. reflexivity. Qed.

Example suggest_null_body :
  completion (suggest (answering (utf16 "x")) JsNull tt)
  = Throw (TypeError "Cannot read properties of null (reading 'text')").
Proof. vm_compute. reflexivity. Qed.

Example connection_opens :
  on_connection (answering (utf16 "x")) accepted
  = (mkSession WebSocket_OPEN true true Running,
     [ConsoleLog (utf16 "クライアント (ブラウザ) が接続しました。");
      StartChat;
      ConsoleLog (utf16 "Gemini Live API との接続を開始しました。");
      SendMessageStream []],
     Normal tt).
Proof. vm_compute. reflexivity. Qed.

Example session_after_browser_close :
  ws_sends (trace (run node22 [StreamYield (text_response (utf16 "one"));
                        BrowserClose;
                        StreamYield (text_response (utf16 "two"))] active))
  = [transcript_frame (utf16 "one")].
Proof. vm_compute. reflexivity. Qed.

Example session_without_global :
  run node20 [StreamYield empty_item;
              StreamYield (text_response (utf16 "one"));
              StreamYield (text_response (utf16 "two"))] active
  = (set_downstream Finished active,
     [ConsoleError (utf16 "Geminiストリーム受信エラー:")
        (Some (ReferenceError "WebSocket is not defined"))],
     Normal tt).
Proof. vm_compute. reflexivity. Qed.

Example startup_sample :
  trace (main parse_empty_object binds sample_env tt)
  = [NewVertexAI (JsString (utf16 "broadster")) (JsString (utf16 "asia-northeast1"))
       (JsObject []);
     ServerListen (JsNumber default_port);
     ConsoleLog (utf16 "Broadster-Live サーバー起動中 (Port: 3000)")].
Proof. vm_compute. reflexivity. Qed.

Example startup_port_in_use :
  main parse_empty_object in_use sample_env tt
  = (tt,
     [NewVertexAI (JsString (utf16 "broadster")) (JsString (utf16 "asia-northeast1"))
        (JsObject []);
      ServerListen (JsNumber default_port)],
     Throw (mkError (utf16 "Error") (utf16 "listen EADDRINUSE: address already in use"))).
Proof. vm_compute. reflexivity. Qed.

Example ToString_numbers :
  ToString (JsArray [JsNumber (number "1e+21"); JsNumber (number "0.5"); JsNumber zero])
  = Normal (utf16 "1e+21,0.5,0").
Proof. reflexivity. Qed.

(** ** Facts about strings *)

Section StringFacts.

Lemma trimStart_split (s : jsstring) :
  ∃ l, s = l ++ trimStart s ∧ Forall (λ c, is_white_space c = true) l.
Proof.
  induction s as [|c s IH]; simpl.
  - exists []. split; [reflexivity | constructor].
  - destruct (is_white_space c) eqn:Hc.
    + destruct IH as (l & Hl & Hws). exists (c :: l). split.
      * simpl. f_equal. exact Hl.
      * constructor; assumption.
    + exists []. split; [reflexivity | constructor].
Qed.

Lemma trimStart_head (s : jsstring) (c : N) :
  head (trimStart s) = Some c → is_white_space c = false.
Proof.
  induction s as [|d s IH]; simpl; [discriminate|].
  destruct (is_white_space d) eqn:Hd; [exact IH|].
  simpl. intros [= <-]. exact Hd.
Qed.

Lemma trimStart_keeps (l r : jsstring) (c : N) :
  is_white_space c = false → trimStart (l ++ c :: r) = trimStart l ++ c :: r.
Proof.
  intros Hc. induction l as [|d l IH]; simpl.
  - rewrite Hc. reflexivity.
  - destruct (is_white_space d); [exact IH | reflexivity].
Qed.

Lemma trimEnd_split (s : jsstring) :
  ∃ r, s = trimEnd s ++ r ∧ Forall (λ c, is_white_space c = true) r.
Proof.
  unfold trimEnd. destruct (trimStart_split (reverse s)) as (l & Hl & Hws).
  exists (reverse l). split.
  - rewrite <- reverse_app, <- Hl, reverse_involutive. reflexivity.
  - apply Forall_forall. intros x Hx. rewrite Forall_forall in Hws.
    apply Hws. apply elem_of_reverse. exact Hx.
Qed.

Lemma trimEnd_last (s : jsstring) (c : N) :
  last (trimEnd s) = Some c → is_white_space c = false.
Proof.
  unfold trimEnd. rewrite last_reverse. apply trimStart_head.
Qed.

Lemma trimEnd_head (s : jsstring) (c : N) :
  is_white_space c = false → head s = Some c → head (trimEnd s) = Some c.
Proof.
  intros Hc Hs. destruct s as [|d s]; [discriminate|].
  simpl in Hs. injection Hs as ->.
  unfold trimEnd. rewrite reverse_cons, trimStart_keeps by exact Hc.
  rewrite reverse_app. reflexivity.
Qed.

(** [trim] removes a run of white space at each end and nothing else. *)
Lemma trim_spec (s : jsstring) :
  (∃ l r, s = l ++ trim s ++ r
          ∧ Forall (λ c, is_white_space c = true) l
          ∧ Forall (λ c, is_white_space c = true) r)
  ∧ (∀ c, head (trim s) = Some c → is_white_space c = false)
  ∧ (∀ c, last (trim s) = Some c → is_white_space c = false).
Proof.
  unfold trim. split; [|split].
  - destruct (trimStart_split s) as (l & Hl & Hwl).
    destruct (trimEnd_split (trimStart s)) as (r & Hr & Hwr).
    exists l, r. split; [|split]; try assumption.
    rewrite <- Hr. exact Hl.
  - intros c Hc.
    destruct (head (trimStart s)) as [d|] eqn:Hd.
    + pose proof (trimStart_head _ _ Hd) as Hws.
      rewrite (trimEnd_head _ _ Hws Hd) in Hc. injection Hc as <-. exact Hws.
    + destruct (trimStart s); [|discriminate]. discriminate.
  - apply trimEnd_last.
Qed.

Lemma starts_with_app (t r : jsstring) : starts_with t (t ++ r) = true.
Proof.
  induction t as [|a t IH]; simpl; [reflexivity|].
  rewrite N.eqb_refl. exact IH.
Qed.

Lemma includes_prefix (s t : jsstring) : starts_with t s = true → includes s t = true.
Proof.
  intros H. destruct s; simpl; rewrite H; reflexivity.
Qed.

(** A string put between two others is included in the result. *)
Lemma includes_app (a s b : jsstring) : includes (a ++ s ++ b) s = true.
Proof.
  induction a as [|x a IH].
  - change ([] ++ s ++ b) with (s ++ b). apply includes_prefix, starts_with_app.
  - simpl. rewrite IH. apply orb_true_r.
Qed.

End StringFacts.

(** ** The suggestion endpoint *)

Section SuggestFacts.

Variable backend : Backend.

(** Line 89 on a body that cannot be dereferenced. *)
Lemma suggest_unreadable (body : JsValue) (e : JsError) :
  Get body (utf16 "text") = Throw e →
  suggest backend body tt = (tt, [], Throw e).
Proof.
  intros Hget. unfold suggest. js_run. rewrite Hget. reflexivity.
Qed.

(** The validation branch: a falsy [text] is answered at once. *)
Lemma suggest_falsy (body v : JsValue) :
  Get body (utf16 "text") = Normal v → ToBoolean v = false →
  suggest backend body tt
  = (tt, [HttpResponse 400 (error_body (utf16 "No text"))], Normal tt).
Proof.
  intros Hget Hv. unfold suggest. js_run. rewrite Hget, Hv. reflexivity.
Qed.

(** The passing branch, by what the awaited call and the extraction do. *)
Lemma suggest_truthy (body v : JsValue) (embedded : jsstring) :
  Get body (utf16 "text") = Normal v → ToBoolean v = true →
  ToString v = Normal embedded →
  suggest backend body tt =
  match generateContent_outcome backend (getGenerativeModel "gemini-2.5-flash")
          (the_prompt embedded) with
  | Throw e => failed_run embedded e
  | Normal result =>
    match first_text (response result) with
    | Throw e => failed_run embedded e
    | Normal None =>
      failed_run embedded
        (TypeError "Cannot read properties of undefined (reading 'trim')")
    | Normal (Some t0) =>
      (tt, [the_call embedded; HttpResponse 200 (suggestion_body (trim t0))], Normal tt)
    end
  end.
Proof.
  intros Hget Hv Hs. unfold suggest. js_run. rewrite Hget, Hv, Hs. cbn [negb].
  destruct (generateContent_outcome backend _ _) as [result|e]; [|reflexivity].
  destruct (first_text (response result)) as [[t0|]|e]; reflexivity.
Qed.

Lemma failed_run_responses (embedded : jsstring) (e : JsError) :
  responses (trace (failed_run embedded e))
  = [(500%Z, JsObject [(utf16 "error", JsString (error_message e))])].
Proof. reflexivity. Qed.

Lemma failed_run_calls (embedded : jsstring) (e : JsError) :
  backend_calls (trace (failed_run embedded e)) = [the_call embedded].
Proof. reflexivity. Qed.

End SuggestFacts.

Lemma trim_stripped (s : jsstring) : stripped s (trim s).
Proof. exact (trim_spec s). Qed.

(** C4.  A request whose body has a non-empty string field [text = s] makes
    exactly one backend call, with a prompt that contains [s] verbatim; when
    that call succeeds with output text [t0], the answer is HTTP 200 with body
    [{"suggestion": t}], [t] being [t0] without the white space at its ends. *)
Theorem suggest_calls_once_and_answers
    (backend : Backend) (props : list (jsstring * JsValue)) (s : jsstring) :
  own_property (utf16 "text") props = Some (JsString s) → s ≠ [] →
  backend_calls (trace (suggest backend (JsObject props) tt)) = [the_call s]
  ∧ includes (the_prompt s) s = true
  ∧ ∀ result t0,
      generateContent_outcome backend (getGenerativeModel "gemini-2.5-flash")
        (the_prompt s) = Normal result →
      first_text (response result) = Normal (Some t0) →
      ∃ t, responses (trace (suggest backend (JsObject props) tt))
           = [(200%Z, suggestion_body t)]
           ∧ stripped t0 t
           ∧ completion (suggest backend (JsObject props) tt) = Normal tt.
Proof.
  intros Hp Hs.
  assert (Hrun := suggest_truthy backend (JsObject props) (JsString s) s).
  simpl Get in Hrun. rewrite Hp in Hrun.
  assert (Ht : ToBoolean (JsString s) = true) by (destruct s; [contradiction | reflexivity]).
  specialize (Hrun eq_refl Ht eq_refl).
  split; [|split].
  - rewrite Hrun.
    destruct (generateContent_outcome backend _ _) as [result|e]; [|reflexivity].
    destruct (first_text (response result)) as [[t0|]|e]; reflexivity.
  - apply includes_app.
  - intros result t0 Hres Hfirst. rewrite Hrun, Hres, Hfirst.
    exists (trim t0). split; [reflexivity|]. split; [apply trim_stripped | reflexivity].
Qed.

Lemma suggest_calls_once_and_answers_witness :
  backend_calls
    (trace (suggest (answering (utf16 "  天気の話 "))
              (JsObject [(utf16 "text", JsString (utf16 "今日は雨です"))]) tt))
  = [the_call (utf16 "今日は雨です")]
  ∧ ∃ t, responses
           (trace (suggest (answering (utf16 "  天気の話 "))
                     (JsObject [(utf16 "text", JsString (utf16 "今日は雨です"))]) tt))
         = [(200%Z, suggestion_body t)]
         ∧ stripped (utf16 "  天気の話 ") t.
Proof.
  destruct (suggest_calls_once_and_answers (answering (utf16 "  天気の話 "))
              [(utf16 "text", JsString (utf16 "今日は雨です"))] (utf16 "今日は雨です"))
    as (Hcalls & _ & Hok).
  - vm_compute. reflexivity.
  - vm_compute. discriminate.
  - split; [exact Hcalls|].
    destruct (Hok (mkResult (text_response (utf16 "  天気の話 "))) (utf16 "  天気の話 "))
      as (t & Hresp & Hstrip & _).
    + reflexivity.
    + reflexivity.
    + exists t. split; assumption.
Defined.

(** C5 fails for a request without a parsed body.  [req.body] is then
    [undefined] (or [null]): line 89 dereferences it unguarded and throws a
    [TypeError] before the check of line 90, so the handler writes no 400,
    and nothing else. *)
Theorem suggest_without_body_throws (backend : Backend) (body : JsValue) :
  body = JsUndefined ∨ body = JsNull →
  (∃ e, completion (suggest backend body tt) = Throw e
        ∧ error_name e = utf16 "TypeError")
  ∧ responses (trace (suggest backend body tt)) = []
  ∧ trace (suggest backend body tt) = [].
Proof.
  intros [-> | ->].
  - rewrite (suggest_unreadable backend JsUndefined _ eq_refl).
    split; [eexists; split; reflexivity|]. split; reflexivity.
  - rewrite (suggest_unreadable backend JsNull _ eq_refl).
    split; [eexists; split; reflexivity|]. split; reflexivity.
Qed.

Lemma suggest_without_body_throws_witness :
  responses (trace (suggest (answering (utf16 "x")) JsUndefined tt)) = []
  ∧ completion (suggest (answering (utf16 "x")) JsUndefined tt)
    = Throw (TypeError "Cannot read properties of undefined (reading 'text')").
Proof.
  destruct (suggest_without_body_throws (answering (utf16 "x")) JsUndefined)
    as (_ & Hresp & _).
  - left. reflexivity.
  - split; [exact Hresp | reflexivity].
Defined.

(** C6.  With a valid [text], a backend call that fails with an error of
    message [m] is answered with HTTP 500 and body [{"error": m}]; the
    backend was called exactly once. *)
Theorem suggest_backend_failure
    (backend : Backend) (props : list (jsstring * JsValue)) (s : jsstring)
    (e : JsError) :
  own_property (utf16 "text") props = Some (JsString s) → s ≠ [] →
  generateContent_outcome backend (getGenerativeModel "gemini-2.5-flash")
    (the_prompt s) = Throw e →
  responses (trace (suggest backend (JsObject props) tt))
  = [(500%Z, JsObject [(utf16 "error", JsString (error_message e))])]
  ∧ backend_calls (trace (suggest backend (JsObject props) tt)) = [the_call s]
  ∧ length (backend_calls (trace (suggest backend (JsObject props) tt))) = 1%nat.
Proof.
  intros Hp Hs He.
  assert (Hrun := suggest_truthy backend (JsObject props) (JsString s) s).
  simpl Get in Hrun. rewrite Hp in Hrun.
  assert (Ht : ToBoolean (JsString s) = true) by (destruct s; [contradiction | reflexivity]).
  specialize (Hrun eq_refl Ht eq_refl). rewrite He in Hrun.
  rewrite Hrun, failed_run_responses, failed_run_calls. repeat split.
Qed.

Lemma suggest_backend_failure_witness :
  responses (trace (suggest (rejecting quota_error)
                      (JsObject [(utf16 "text", JsString (utf16 "hello"))]) tt))
  = [(500%Z, JsObject [(utf16 "error", JsString (utf16 "429 Too Many Requests"))])]
  ∧ length (backend_calls
              (trace (suggest (rejecting quota_error)
                        (JsObject [(utf16 "text", JsString (utf16 "hello"))]) tt)))
    = 1%nat.
Proof.
  destruct (suggest_backend_failure (rejecting quota_error)
              [(utf16 "text", JsString (utf16 "hello"))] (utf16 "hello") quota_error)
    as (Hresp & _ & Hlen).
  - vm_compute. reflexivity.
  - vm_compute. discriminate.
  - reflexivity.
  - split; [exact Hresp | exact Hlen].
Defined.

(** The throwing chain of line 97 and the optional chain of line 54 read
    the same field. *)
Lemma first_text_optional (r : GenerateContentResponse) :
  match optional_text r with
  | Some t => first_text r = Normal (Some t)
  | None => first_text r = Normal None ∨ ∃ e, first_text r = Throw e
  end.
Proof.
  destruct r as [cs].
  destruct cs as [[|[ct] cs]|]; cbn; eauto.
  destruct ct as [[ps]|]; cbn; eauto.
  destruct ps as [[|[t] ps]|]; cbn; eauto.
  destruct t; cbn; eauto.
Qed.

(** C10.  With a valid [text], a backend call that succeeds with a response
    whose first candidate has no first part carrying text makes the
    extraction throw inside the [try]; the client receives HTTP 500 with that
    exception's message, and the whole run is the one of a backend call
    rejected with the same error. *)
Theorem suggest_unusable_response
    (backend : Backend) (props : list (jsstring * JsValue)) (s : jsstring)
    (result : GenerateContentResult) :
  own_property (utf16 "text") props = Some (JsString s) → s ≠ [] →
  generateContent_outcome backend (getGenerativeModel "gemini-2.5-flash")
    (the_prompt s) = Normal result →
  optional_text (response result) = None →
  ∃ e : JsError,
    (first_text (response result) = Throw e
     ∨ first_text (response result) = Normal None
       ∧ member "trim" (@None jsstring) trim = Throw e)
    ∧ responses (trace (suggest backend (JsObject props) tt))
      = [(500%Z, JsObject [(utf16 "error", JsString (error_message e))])]
    ∧ backend_calls (trace (suggest backend (JsObject props) tt)) = [the_call s]
    ∧ ∀ backend' : Backend,
        generateContent_outcome backend' (getGenerativeModel "gemini-2.5-flash")
          (the_prompt s) = Throw e →
        suggest backend' (JsObject props) tt = suggest backend (JsObject props) tt.
Proof.
  intros Hp Hs Hres Hnone.
  assert (Ht : ToBoolean (JsString s) = true) by (destruct s; [contradiction | reflexivity]).
  assert (Hget : Get (JsObject props) (utf16 "text") = Normal (JsString s))
    by (simpl; rewrite Hp; reflexivity).
  assert (Hrun := suggest_truthy backend _ _ s Hget Ht eq_refl).
  rewrite Hres in Hrun.
  pose proof (first_text_optional (response result)) as Hopt. rewrite Hnone in Hopt.
  destruct Hopt as [Hundef | [e He]].
  - rewrite Hundef in Hrun.
    exists (TypeError "Cannot read properties of undefined (reading 'trim')").
    split; [right; split; [exact Hundef | reflexivity]|].
    rewrite Hrun, failed_run_responses, failed_run_calls.
    split; [reflexivity|]. split; [reflexivity|].
    intros backend' Hfail.
    rewrite (suggest_truthy backend' _ _ s Hget Ht eq_refl), Hfail. reflexivity.
  - rewrite He in Hrun. exists e.
    split; [left; exact He|].
    rewrite Hrun, failed_run_responses, failed_run_calls.
    split; [reflexivity|]. split; [reflexivity|].
    intros backend' Hfail.
    rewrite (suggest_truthy backend' _ _ s Hget Ht eq_refl), Hfail. reflexivity.
Qed.

Lemma suggest_unusable_response_witness :
  ∃ e : JsError,
    responses (trace (suggest blocking
                        (JsObject [(utf16 "text", JsString (utf16 "hello"))]) tt))
    = [(500%Z, JsObject [(utf16 "error", JsString (error_message e))])]
    ∧ suggest (rejecting e) (JsObject [(utf16 "text", JsString (utf16 "hello"))]) tt
      = suggest blocking (JsObject [(utf16 "text", JsString (utf16 "hello"))]) tt.
Proof.
  destruct (suggest_unusable_response blocking
              [(utf16 "text", JsString (utf16 "hello"))] (utf16 "hello")
              (mkResult blocked_response))
    as (e & _ & Hresp & _ & Hsame).
  - vm_compute. reflexivity.
  - vm_compute. discriminate.
  - reflexivity.
  - reflexivity.
  - exists e. split; [exact Hresp|]. apply Hsame. reflexivity.
Defined.

(** A truthy [text] whose conversion to a string throws: the template
    literal of line 93 is outside the [try], so the handler stops there. *)
Lemma suggest_unprintable
    (backend : Backend) (body v : JsValue) (e : JsError) :
  Get body (utf16 "text") = Normal v → ToBoolean v = true →
  ToString v = Throw e →
  suggest backend body tt = (tt, [], Throw e).
Proof.
  intros Hget Hv Hs. unfold suggest. js_run. rewrite Hget, Hv, Hs. reflexivity.
Qed.

(** C9, as stated, fails: an object with an own property [toString] is
    truthy and not a string, yet it is neither answered nor embedded in a
    prompt; the handler throws before the backend call. *)
Lemma suggest_truthy_object_not_embedded :
  let v := JsObject [(utf16 "toString", JsNumber zero)] in
  let run := suggest (answering (utf16 "x")) (JsObject [(utf16 "text", v)]) tt in
  ToBoolean v = true
  ∧ backend_calls (trace run) = []
  ∧ responses (trace run) = []
  ∧ completion run = Throw (TypeError "Cannot convert object to primitive value").
Proof.
  vm_compute. repeat split.
Qed.

(** C9, amended.  Validation is by truthiness of [req.body.text]: a falsy
    value (among them the number 0 of either sign, [false] and [null]) is
    answered with HTTP 400 and body [{"error":"No text"}] without a backend
    call; a truthy value of any type passes, and when its conversion to a
    string succeeds the converted text is embedded in the prompt of the one
    backend call, while a conversion that throws ends the handler before any
    call or answer. *)
Theorem suggest_validates_by_truthiness
    (backend : Backend) (props : list (jsstring * JsValue)) (v : JsValue) :
  own_property (utf16 "text") props = Some v →
  (ToBoolean v = false →
     suggest backend (JsObject props) tt
     = (tt, [HttpResponse 400 (JsObject [(utf16 "error", JsString (utf16 "No text"))])],
        Normal tt))
  ∧ (ToBoolean v = true →
       match ToString v with
       | Normal embedded =>
         backend_calls (trace (suggest backend (JsObject props) tt))
         = [GenerateContent (utf16 "gemini-2.5-flash")
              (prompt_prefix ++ embedded ++ prompt_suffix)]
         ∧ includes (prompt_prefix ++ embedded ++ prompt_suffix) embedded = true
         ∧ ¬ (400%Z, JsObject [(utf16 "error", JsString (utf16 "No text"))])
             ∈ responses (trace (suggest backend (JsObject props) tt))
       | Throw e => suggest backend (JsObject props) tt = (tt, [], Throw e)
       end)
  ∧ (∀ x : Number, is_zero_or_NaN x = true → ToBoolean (JsNumber x) = false)
  ∧ ToBoolean (JsBool false) = false
  ∧ ToBoolean JsNull = false.
Proof.
  intros Hp.
  assert (Hget : Get (JsObject props) (utf16 "text") = Normal v)
    by (simpl; rewrite Hp; reflexivity).
  split; [|split; [|split; [|split; reflexivity]]].
  3:{ intros x Hx. cbn. rewrite Hx. reflexivity. }
  - intros Hv. exact (suggest_falsy backend _ v Hget Hv).
  - intros Hv. destruct (ToString v) as [embedded|e] eqn:Hs.
    + rewrite (suggest_truthy backend _ v embedded Hget Hv Hs).
      split; [|split].
      * destruct (generateContent_outcome backend _ _) as [result|e]; [|reflexivity].
        destruct (first_text (response result)) as [[t0|]|e]; reflexivity.
      * apply includes_app.
      * destruct (generateContent_outcome backend _ _) as [result|e].
        -- destruct (first_text (response result)) as [[t0|]|e];
             cbn; rewrite !elem_of_cons, elem_of_nil; intros [[=]|[]].
        -- cbn; rewrite !elem_of_cons, elem_of_nil; intros [[=]|[]].
    + exact (suggest_unprintable backend _ v e Hget Hv Hs).
Qed.

Lemma suggest_validates_by_truthiness_witness :
  suggest (answering (utf16 "x")) (JsObject [(utf16 "text", JsNumber zero)]) tt
  = (tt, [HttpResponse 400 (JsObject [(utf16 "error", JsString (utf16 "No text"))])],
     Normal tt)
  ∧ backend_calls
      (trace (suggest (answering (utf16 "x"))
                (JsObject [(utf16 "text", JsNumber (number "1e+21"))]) tt))
    = [GenerateContent (utf16 "gemini-2.5-flash")
         (prompt_prefix ++ utf16 "1e+21" ++ prompt_suffix)].
Proof.
  split.
  - apply (suggest_validates_by_truthiness (answering (utf16 "x"))
             [(utf16 "text", JsNumber zero)] (JsNumber zero)).
    + vm_compute. reflexivity.
    + reflexivity.
  - pose proof (suggest_validates_by_truthiness (answering (utf16 "x"))
                  [(utf16 "text", JsNumber (number "1e+21"))]
                  (JsNumber (number "1e+21"))) as H.
    destruct H as (_ & H & _).
    + vm_compute. reflexivity.
    + apply H. reflexivity.
Defined.

(** ** Start-up *)

Section StartupFacts.

Variable JSON_parse : jsstring → Completion JsValue.
Variable listening : JsValue → Completion unit.

Lemma main_missing (env : gmap string jsstring) :
  ToBoolean (PROJECT_ID env) = false ∨ ToBoolean (CREDENTIALS_JSON env) = false →
  main JSON_parse listening env tt
  = (tt, [ConsoleError config_diagnostic None; ProcessExit 1], Normal tt).
Proof.
  intros H. unfold main.
  assert (Hc : negb (ToBoolean (PROJECT_ID env)) || negb (ToBoolean (CREDENTIALS_JSON env))
               = true).
  { destruct H as [-> | ->]; [reflexivity | apply orb_true_r]. }
  rewrite Hc. reflexivity.
Qed.

Lemma main_configured (env : gmap string jsstring) (p c : jsstring) (creds : JsValue) :
  env !! "GOOGLE_PROJECT_ID" = Some p → p ≠ [] →
  env !! "GOOGLE_CREDENTIALS_JSON" = Some c → c ≠ [] →
  JSON_parse c = Normal creds →
  ∃ port,
    ToString (PORT env) = Normal port
    ∧ main JSON_parse listening env tt
      = match listening (PORT env) with
        | Normal _ =>
          (tt, [NewVertexAI (JsString p) (LOCATION env) creds;
                ServerListen (PORT env);
                ConsoleLog (utf16 "Broadster-Live サーバー起動中 (Port: " ++ port
                            ++ utf16 ")")],
           Normal tt)
        | Throw e =>
          (tt, [NewVertexAI (JsString p) (LOCATION env) creds;
                ServerListen (PORT env)],
           Throw e)
        end.
Proof.
  intros Hp Hpne Hc Hcne Hparse.
  assert (Hport : ∃ port, ToString (PORT env) = Normal port).
  { unfold PORT, js_or, env_get. destruct (env !! "PORT") as [[|x s]|]; cbn; eauto. }
  destruct Hport as [port Hport]. exists port. split; [exact Hport|].
  unfold main, PROJECT_ID, CREDENTIALS_JSON, env_get. rewrite Hp, Hc.
  destruct p as [|p0 p]; [contradiction|]. destruct c as [|c0 c]; [contradiction|].
  cbn [ToBoolean negb orb ToString]. js_run. rewrite Hparse.
  destruct (listening (PORT env)) as [[]|e]; [|reflexivity].
  rewrite Hport. reflexivity.
Qed.

(** What a configured process does up to the [listen] call, whatever
    becomes of the call. *)
Lemma main_configured_calls (env : gmap string jsstring) (p c : jsstring)
    (creds : JsValue) :
  env !! "GOOGLE_PROJECT_ID" = Some p → p ≠ [] →
  env !! "GOOGLE_CREDENTIALS_JSON" = Some c → c ≠ [] →
  JSON_parse c = Normal creds →
  ∃ rest,
    trace (main JSON_parse listening env tt)
    = NewVertexAI (JsString p) (LOCATION env) creds :: ServerListen (PORT env) :: rest
    ∧ (rest = [] ∨ ∃ msg, rest = [ConsoleLog msg]).
Proof.
  intros Hp Hpne Hc Hcne Hparse.
  destruct (main_configured env p c creds Hp Hpne Hc Hcne Hparse) as (port & _ & Hrun).
  rewrite Hrun. destruct (listening (PORT env)) as [[]|e]; eexists; split;
    try reflexivity; eauto.
Qed.

End StartupFacts.

(** C7.  When the project identifier or the credentials JSON is absent from
    the environment, the process prints a diagnostic and then exits with
    status 1, without constructing the client and without listening.  The
    region is optional: when it is absent the location is
    [asia-northeast1], and a process with the required settings still
    listens. *)
Theorem startup_requires_configuration
    (JSON_parse : jsstring → Completion JsValue) (listening : JsValue → Completion unit)
    (env : gmap string jsstring) :
  (env !! "GOOGLE_PROJECT_ID" = None ∨ env !! "GOOGLE_CREDENTIALS_JSON" = None →
     main JSON_parse listening env tt
     = (tt, [ConsoleError config_diagnostic None; ProcessExit 1], Normal tt)
     ∧ (∀ code, ProcessExit code ∈ trace (main JSON_parse listening env tt) → code ≠ 0%Z)
     ∧ filter (λ e, is_listen e = true) (trace (main JSON_parse listening env tt)) = [])
  ∧ (env !! "GOOGLE_LOCATION" = None →
       LOCATION env = JsString (utf16 "asia-northeast1")
       ∧ ∀ p c creds,
           env !! "GOOGLE_PROJECT_ID" = Some p → p ≠ [] →
           env !! "GOOGLE_CREDENTIALS_JSON" = Some c → c ≠ [] →
           JSON_parse c = Normal creds →
           NewVertexAI (JsString p) (JsString (utf16 "asia-northeast1")) creds
             ∈ trace (main JSON_parse listening env tt)
           ∧ ServerListen (PORT env) ∈ trace (main JSON_parse listening env tt)).
Proof.
  split.
  - intros H.
    assert (Hrun : main JSON_parse listening env tt
                   = (tt, [ConsoleError config_diagnostic None; ProcessExit 1], Normal tt)).
    { apply main_missing. unfold PROJECT_ID, CREDENTIALS_JSON, env_get.
      destruct H as [-> | ->]; [left | right]; reflexivity. }
    rewrite Hrun. split; [reflexivity|]. split; [|reflexivity].
    intros code Hin. cbn in Hin.
    rewrite !elem_of_cons, elem_of_nil in Hin.
    destruct Hin as [[=] | [[= ->] | []]]. discriminate.
  - intros Hloc.
    assert (Hl : LOCATION env = JsString (utf16 "asia-northeast1")).
    { unfold LOCATION, js_or, env_get. rewrite Hloc. reflexivity. }
    split; [exact Hl|].
    intros p c creds Hp Hpne Hc Hcne Hparse.
    destruct (main_configured_calls JSON_parse listening env p c creds
                Hp Hpne Hc Hcne Hparse) as (rest & Hrun & _).
    rewrite Hrun, Hl, !elem_of_cons. split; [left | right; left]; reflexivity.
Qed.

Lemma startup_requires_configuration_witness :
  main parse_empty_object binds ∅ tt
  = (tt, [ConsoleError config_diagnostic None; ProcessExit 1], Normal tt)
  ∧ LOCATION sample_env = JsString (utf16 "asia-northeast1")
  ∧ ServerListen (JsNumber default_port) ∈ trace (main parse_empty_object binds sample_env tt).
Proof.
  split; [|split].
  - apply (startup_requires_configuration parse_empty_object binds ∅).
    left. apply lookup_empty.
  - apply (startup_requires_configuration parse_empty_object binds sample_env).
    vm_compute. reflexivity.
  - pose proof (startup_requires_configuration parse_empty_object binds sample_env) as [_ H].
    destruct H as [_ H]; [vm_compute; reflexivity|].
    destruct (H (utf16 "broadster") (utf16 "{}") (JsObject [])) as [_ Hl].
    + vm_compute. reflexivity.
    + vm_compute. discriminate.
    + vm_compute. reflexivity.
    + vm_compute. discriminate.
    + vm_compute. reflexivity.
    + exact Hl.
Defined.

(** ** The relay *)

Section RelayFacts.

Variable rt : Runtime.

(** The loop body: line 55 re-reads what line 54 found and cannot throw;
    line 56 throws where the runtime has no global [WebSocket]. *)
Lemma forward_run (item : GenerateContentResponse) (s : Session) :
  forward rt item s =
  match carried_text item with
  | Some t =>
    if has_global_WebSocket rt then
      if (readyState s =? WebSocket_OPEN)%Z
      then (s, [WsSend (JSON_stringify (transcript_message (JsString t)))], Normal tt)
      else (s, [], Normal tt)
    else (s, [], Throw (ReferenceError "WebSocket is not defined"))
  | None => (s, [], Normal tt)
  end.
Proof.
  unfold forward, carried_text, global_WebSocket_OPEN.
  pose proof (first_text_optional item) as Hopt.
  destruct (optional_text item) as [[|c t]|]; try reflexivity.
  cbn [of_optional ToBoolean]. js_run. rewrite Hopt.
  destruct (has_global_WebSocket rt); [|reflexivity].
  destruct (readyState s =? WebSocket_OPEN)%Z; reflexivity.
Qed.

(** Every event is handled to completion; this is what each one does. *)
Lemma step_run (i : Input) (s : Session) :
  step rt i s =
  match i with
  | BrowserFrame _ => (s, [], Normal tt)
  | BrowserClose =>
    (set_readyState WebSocket_CLOSED s,
     if close_listener s then [ConsoleLog (utf16 "クライアントが切断しました。")] else [],
     Normal tt)
  | StreamYield item =>
    match downstream s, carried_text item with
    | Running, Some t =>
      if has_global_WebSocket rt then
        if (readyState s =? WebSocket_OPEN)%Z
        then (s, [WsSend (JSON_stringify (transcript_message (JsString t)))], Normal tt)
        else (s, [], Normal tt)
      else
        (set_downstream Finished s,
         [ConsoleError (utf16 "Geminiストリーム受信エラー:")
            (Some (ReferenceError "WebSocket is not defined"))],
         Normal tt)
    | _, _ => (s, [], Normal tt)
    end
  | StreamDone =>
    match downstream s with
    | Running => (set_downstream Finished s, [], Normal tt)
    | _ => (s, [], Normal tt)
    end
  | StreamThrow e =>
    match downstream s with
    | Running =>
      (set_downstream Finished s,
       [ConsoleError (utf16 "Geminiストリーム受信エラー:") (Some e)], Normal tt)
    | _ => (s, [], Normal tt)
    end
  end.
Proof.
  unfold step. destruct i as [m| |item| |e].
  - js_run. unfold on_message. destruct (message_listener s); reflexivity.
  - js_run. unfold on_close. destruct (close_listener s); reflexivity.
  - js_run. destruct (downstream s); try reflexivity.
    rewrite forward_run.
    destruct (carried_text item); [|reflexivity].
    destruct (has_global_WebSocket rt); [|reflexivity].
    destruct (readyState s =? WebSocket_OPEN)%Z; reflexivity.
  - js_run. destruct (downstream s); reflexivity.
  - js_run. destruct (downstream s); reflexivity.
Qed.

Lemma step_normal (i : Input) (s : Session) : completion (step rt i s) = Normal tt.
Proof.
  rewrite step_run. destruct i; try reflexivity.
  - destruct (downstream s), (carried_text item); try reflexivity.
    destruct (has_global_WebSocket rt); [|reflexivity].
    destruct (readyState s =? WebSocket_OPEN)%Z; reflexivity.
  - destruct (downstream s); reflexivity.
  - destruct (downstream s); reflexivity.
Qed.

Lemma run_cons (i : Input) (rest : list Input) (s : Session) :
  run rt (i :: rest) s
  = (final (run rt rest (final (step rt i s))),
     trace (step rt i s) ++ trace (run rt rest (final (step rt i s))),
     completion (run rt rest (final (step rt i s)))).
Proof.
  pose proof (step_normal i s) as Hn.
  cbn [run]. destruct (step rt i s) as [[s1 t1] c1] eqn:Hs.
  cbv [completion snd] in Hn. subst c1.
  cbv [mbind Js_bind]. rewrite Hs.
  destruct (run rt rest s1) as [[s2 t2] c2] eqn:Hr.
  cbv [final trace completion fst snd]. rewrite Hr. reflexivity.
Qed.

Lemma run_normal (inputs : list Input) (s : Session) :
  completion (run rt inputs s) = Normal tt.
Proof.
  revert s. induction inputs as [|i rest IH]; intros s; [reflexivity|].
  rewrite run_cons. apply IH.
Qed.

End RelayFacts.

Section ConnectionFacts.

Variable backend : Backend.

(** The three ways through the connection handler. *)
Lemma on_connection_run (s : Session) :
  on_connection backend s =
  match startChat_outcome backend with
  | Throw e =>
    (set_close_listener (closing s),
     [ConsoleLog (utf16 "クライアント (ブラウザ) が接続しました。");
      StartChat;
      ConsoleError (utf16 "Gemini Live APIとの接続エラー:") (Some e);
      WsClose None],
     Normal tt)
  | Normal _ =>
    match sendMessageStream_outcome backend [] with
    | Throw e =>
      (set_close_listener (closing s),
       [ConsoleLog (utf16 "クライアント (ブラウザ) が接続しました。");
        StartChat;
        ConsoleLog (utf16 "Gemini Live API との接続を開始しました。");
        SendMessageStream [];
        ConsoleError (utf16 "Gemini Live APIとの接続エラー:") (Some e);
        WsClose None],
       Normal tt)
    | Normal _ =>
      (set_close_listener (set_message_listener (set_downstream Running s)),
       [ConsoleLog (utf16 "クライアント (ブラウザ) が接続しました。");
        StartChat;
        ConsoleLog (utf16 "Gemini Live API との接続を開始しました。");
        SendMessageStream []],
       Normal tt)
    end
  end.
Proof.
  unfold on_connection, ws_close. js_run.
  destruct (startChat_outcome backend) as [[]|e]; [|reflexivity].
  destruct (sendMessageStream_outcome backend []) as [[]|e]; reflexivity.
Qed.

End ConnectionFacts.

Lemma stringify_transcript_message (t : jsstring) :
  JSON_stringify (transcript_message (JsString t)) = transcript_frame t.
Proof.
  unfold JSON_stringify, transcript_message, transcript_frame.
  cbn [serialize join_with]. rewrite <- !app_assoc. reflexivity.
Qed.

Lemma run_trace_cons (rt : Runtime) (i : Input) (rest : list Input) (s : Session) :
  trace (run rt (i :: rest) s)
  = trace (step rt i s) ++ trace (run rt rest (final (step rt i s))).
Proof. rewrite run_cons. reflexivity. Qed.

(** A frame reaches the browser only from the reading loop, on an open
    socket, for an item that carries text. *)
Lemma step_send (rt : Runtime) (i : Input) (s : Session) (d : JsValue) :
  WsSend d ∈ trace (step rt i s) →
  readyState s = WebSocket_OPEN ∧ downstream s = Running
  ∧ ∃ item t, i = StreamYield item ∧ carried_text item = Some t
              ∧ d = transcript_frame t.
Proof.
  rewrite step_run. destruct i as [m| |item| |e]; cbn.
  - intros H. apply elem_of_nil in H. contradiction.
  - destruct (close_listener s); cbn; rewrite ?elem_of_cons, elem_of_nil;
      intros H; [destruct H as [[=]|[]] | contradiction].
  - destruct (downstream s) eqn:Hd, (carried_text item) as [t|] eqn:Ht; cbn;
      try (intros H; apply elem_of_nil in H; contradiction).
    destruct (has_global_WebSocket rt); cbn.
    2:{ rewrite elem_of_cons, elem_of_nil. intros [[=]|[]]. }
    destruct (readyState s =? WebSocket_OPEN)%Z eqn:Hr; cbn;
      try (intros H; apply elem_of_nil in H; contradiction).
    rewrite elem_of_cons, elem_of_nil. intros [[= ->]|[]].
    apply Z.eqb_eq in Hr. split; [exact Hr|]. split; [reflexivity|].
    exists item, t. split; [reflexivity|]. split; [exact Ht|].
    apply stringify_transcript_message.
  - destruct (downstream s); cbn; intros H; apply elem_of_nil in H; contradiction.
  - destruct (downstream s); cbn; rewrite ?elem_of_cons, elem_of_nil;
      intros H; try contradiction. destruct H as [[=]|[]].
Qed.

(** While the socket is open and the loop runs, on a runtime that defines
    the global, yielding items changes neither. *)
Lemma run_yields (rt : Runtime) (items : list GenerateContentResponse) (s : Session) :
  has_global_WebSocket rt = true →
  downstream s = Running → readyState s = WebSocket_OPEN →
  ws_sends (trace (run rt (map StreamYield items) s))
  = map transcript_frame (omap carried_text items).
Proof.
  intros Hg Hd Hr. induction items as [|item items IH]; [reflexivity|].
  cbn [map]. rewrite run_trace_cons, step_run, Hd, Hr, Hg.
  destruct (carried_text item) as [t|] eqn:Ht;
    cbn -[run JSON_stringify transcript_message]; rewrite Ht.
  - cbn [map]. rewrite stringify_transcript_message. f_equal. exact IH.
  - exact IH.
Qed.

Lemma run_sends_sublist (rt : Runtime) (inputs : list Input) (s : Session) :
  sublist (ws_sends (trace (run rt inputs s)))
          (map transcript_frame (omap carried_text (yielded inputs))).
Proof.
  revert s. induction inputs as [|i rest IH]; intros s; [constructor|].
  rewrite run_trace_cons. unfold ws_sends. rewrite omap_app. fold ws_sends.
  rewrite step_run.
  destruct i as [m| |item| |e]; cbn -[run JSON_stringify transcript_message].
  - apply IH.
  - destruct (close_listener s); apply IH.
  - destruct (downstream s), (carried_text item) as [t|];
      cbn -[run JSON_stringify transcript_message]; try apply IH;
      try (apply sublist_cons, IH).
    destruct (has_global_WebSocket rt); cbn -[run JSON_stringify transcript_message].
    2:{ apply sublist_cons, IH. }
    destruct (readyState s =? WebSocket_OPEN)%Z;
      cbn -[run JSON_stringify transcript_message].
    + rewrite stringify_transcript_message. apply sublist_skip, IH.
    + apply sublist_cons, IH.
  - destruct (downstream s); apply IH.
  - destruct (downstream s); apply IH.
Qed.

(** C1, as stated, fails: on an active session a frame from the browser
    causes no request to the backend, so it is not forwarded. *)
Lemma frame_not_forwarded :
  message_listener active = true
  ∧ downstream active = Running
  ∧ ¬ ∃ e, e ∈ trace (step node22 (BrowserFrame [0x52; 0x49; 0x46; 0x46]) active)
           ∧ is_backend_call e = true.
Proof.
  split; [reflexivity|]. split; [reflexivity|].
  rewrite step_run. intros (e & Hin & _). cbn in Hin.
  apply elem_of_nil in Hin. exact Hin.
Qed.

(** C1, amended.  The [message] listener does nothing: a frame received
    from the browser is dropped, with no effect at all and no change to the
    session, in every state and whatever follows. *)
Theorem frames_are_dropped (rt : Runtime) (s : Session) (message : list N) :
  step rt (BrowserFrame message) s = (s, [], Normal tt)
  ∧ ∀ rest : list Input,
      trace (run rt (BrowserFrame message :: rest) s) = trace (run rt rest s).
Proof.
  split.
  - apply step_run.
  - intros rest. rewrite run_trace_cons, step_run. reflexivity.
Qed.

(** No event of a running session closes the socket or calls the backend. *)
Lemma step_closes_nothing (rt : Runtime) (i : Input) (s : Session) :
  ws_closes (trace (step rt i s)) = [] ∧ backend_calls (trace (step rt i s)) = [].
Proof.
  rewrite step_run. destruct i as [m| |item| |e]; cbn.
  - split; reflexivity.
  - destruct (close_listener s); split; reflexivity.
  - destruct (downstream s), (carried_text item); try (split; reflexivity).
    destruct (has_global_WebSocket rt); [|split; reflexivity].
    destruct (readyState s =? WebSocket_OPEN)%Z; split; reflexivity.
  - destruct (downstream s); split; reflexivity.
  - destruct (downstream s); split; reflexivity.
Qed.

Lemma run_closes_nothing (rt : Runtime) (inputs : list Input) (s : Session) :
  ws_closes (trace (run rt inputs s)) = [] ∧ backend_calls (trace (run rt inputs s)) = [].
Proof.
  revert s. induction inputs as [|i rest IH]; intros s; [split; reflexivity|].
  rewrite run_trace_cons. unfold ws_closes, backend_calls.
  rewrite omap_app, filter_app.
  destruct (step_closes_nothing rt i s) as [Hc Hb].
  destruct (IH (final (step rt i s))) as [Hc' Hb'].
  unfold ws_closes, backend_calls in Hc, Hb, Hc', Hb'.
  rewrite Hc, Hb, Hc', Hb'. split; reflexivity.
Qed.

(** C2, as stated, fails in both directions: after the browser has closed,
    the loop still reads the backend stream and no request went to the
    backend; after the stream has ended or failed, the socket is still open
    and [close] was not called. *)
Lemma teardown_not_coupled :
  (downstream (final (step node22 BrowserClose active)) = Running
   ∧ backend_calls (trace (step node22 BrowserClose active)) = [])
  ∧ (readyState (final (step node22 StreamDone active)) = WebSocket_OPEN
     ∧ ws_closes (trace (step node22 StreamDone active)) = [])
  ∧ (readyState (final (step node22 (StreamThrow quota_error) active)) = WebSocket_OPEN
     ∧ ws_closes (trace (step node22 (StreamThrow quota_error) active)) = []).
Proof.
  rewrite !step_run. vm_compute. repeat split.
Qed.

(** C2, amended.  The two endpoints of a session close independently: no
    event of the session makes the handler close the socket or send a
    request to the backend; the browser's close is logged and leaves the
    reading loop as it was; the end of the stream stops the loop silently,
    and a stream error stops it after being logged, the socket staying in
    the state it had. *)
Theorem endpoints_close_independently (rt : Runtime) (s : Session) :
  (∀ inputs : list Input,
     ws_closes (trace (run rt inputs s)) = []
     ∧ backend_calls (trace (run rt inputs s)) = [])
  ∧ (downstream (final (step rt BrowserClose s)) = downstream s
     ∧ trace (step rt BrowserClose s)
       = if close_listener s
         then [ConsoleLog (utf16 "クライアントが切断しました。")] else [])
  ∧ (readyState (final (step rt StreamDone s)) = readyState s
     ∧ trace (step rt StreamDone s) = []
     ∧ downstream (final (step rt StreamDone s)) ≠ Running)
  ∧ (∀ e : JsError,
       readyState (final (step rt (StreamThrow e) s)) = readyState s
       ∧ trace (step rt (StreamThrow e) s)
         = match downstream s with
           | Running => [ConsoleError (utf16 "Geminiストリーム受信エラー:") (Some e)]
           | _ => []
           end
       ∧ downstream (final (step rt (StreamThrow e) s)) ≠ Running).
Proof.
  split; [|split; [|split]].
  - intros inputs. apply run_closes_nothing.
  - rewrite step_run. split; reflexivity.
  - rewrite step_run. destruct (downstream s) eqn:Hd; cbn; rewrite ?Hd;
      repeat split; discriminate.
  - intros e. rewrite step_run. destruct (downstream s) eqn:Hd; cbn; rewrite ?Hd;
      repeat split; discriminate.
Qed.

(** A session whose loop never started sends nothing and requests nothing,
    whatever happens to it. *)
Lemma step_idle (rt : Runtime) (i : Input) (s : Session) :
  downstream s = NotStarted →
  downstream (final (step rt i s)) = NotStarted
  ∧ filter (λ e, is_forwarding e = true) (trace (step rt i s)) = [].
Proof.
  intros Hd. rewrite step_run. destruct i as [m| |item| |e]; cbn; rewrite ?Hd.
  - split; reflexivity.
  - split; [reflexivity|]. destruct (close_listener s); reflexivity.
  - split; [cbn; rewrite ?Hd|]; reflexivity.
  - split; [cbn; rewrite ?Hd|]; reflexivity.
  - split; [cbn; rewrite ?Hd|]; reflexivity.
Qed.

Lemma run_idle (rt : Runtime) (inputs : list Input) (s : Session) :
  downstream s = NotStarted →
  filter (λ e, is_forwarding e = true) (trace (run rt inputs s)) = [].
Proof.
  revert s. induction inputs as [|i rest IH]; intros s Hd; [reflexivity|].
  rewrite run_trace_cons, filter_app.
  destruct (step_idle rt i s Hd) as [Hd' Hf].
  rewrite Hf, (IH _ Hd'). reflexivity.
Qed.

(** C8, as stated, fails: when the backend session cannot be opened the
    socket is closed by [ws.close()] without arguments; no close code, so no
    error status, is passed. *)
Lemma failed_connection_close_has_no_status :
  ws_closes (trace (on_connection (rejecting quota_error) accepted)) = [None]
  ∧ ¬ ∃ code : Z,
        WsClose (Some code) ∈ trace (on_connection (rejecting quota_error) accepted).
Proof.
  rewrite on_connection_run. split; [reflexivity|].
  intros (code & Hin). cbn in Hin.
  rewrite !elem_of_cons, elem_of_nil in Hin.
  destruct Hin as [[=]|[[=]|[[=]|[[=]|[]]]]].
Qed.

(** C8, amended.  When opening the backend session fails, the error is
    logged, the socket is closed once by [ws.close()] with no close code,
    which takes it from open to closing; the reading loop is never started
    and no [message] listener is registered, so nothing is forwarded in
    either direction for that session, whatever happens afterwards. *)
Theorem failed_connection_closes_socket (backend : Backend) :
  connect_fails backend →
  ws_closes (trace (on_connection backend accepted)) = [None]
  ∧ (∃ e : JsError,
       ConsoleError (utf16 "Gemini Live APIとの接続エラー:") (Some e)
         ∈ trace (on_connection backend accepted))
  ∧ ws_sends (trace (on_connection backend accepted)) = []
  ∧ readyState (final (on_connection backend accepted)) = WebSocket_CLOSING
  ∧ downstream (final (on_connection backend accepted)) = NotStarted
  ∧ message_listener (final (on_connection backend accepted)) = false
  ∧ ∀ (rt : Runtime) (inputs : list Input),
      filter (λ e, is_forwarding e = true)
        (trace (run rt inputs (final (on_connection backend accepted)))) = [].
Proof.
  intros Hfail. rewrite on_connection_run.
  assert (Hcase :
    (∃ e, startChat_outcome backend = Throw e)
    ∨ (∃ u e, startChat_outcome backend = Normal u
              ∧ sendMessageStream_outcome backend [] = Throw e)).
  { destruct (startChat_outcome backend) as [u|e] eqn:Hc; [|left; eauto].
    destruct Hfail as [[e He]|[e He]]; [congruence|]. right. eauto. }
  destruct Hcase as [[e He]|(u & e & Hu & He)].
  - rewrite He. cbn.
    split; [reflexivity|]. split.
    { exists e. rewrite !elem_of_cons. right; right; left. reflexivity. }
    split; [reflexivity|]. split; [reflexivity|]. split; [reflexivity|].
    split; [reflexivity|].
    intros rt inputs. apply run_idle. reflexivity.
  - rewrite Hu, He. cbn.
    split; [reflexivity|]. split.
    { exists e. rewrite !elem_of_cons. right; right; right; right; left. reflexivity. }
    split; [reflexivity|]. split; [reflexivity|]. split; [reflexivity|].
    split; [reflexivity|].
    intros rt inputs. apply run_idle. reflexivity.
Qed.

Lemma failed_connection_closes_socket_witness :
  ws_closes (trace (on_connection (rejecting_stream quota_error) accepted)) = [None]
  ∧ filter (λ e, is_forwarding e = true)
      (trace (run node22 [BrowserFrame [1; 2; 3]; StreamYield (text_response (utf16 "hi"));
                   BrowserClose]
                (final (on_connection (rejecting_stream quota_error) accepted)))) = [].
Proof.
  destruct (failed_connection_closes_socket (rejecting_stream quota_error))
    as (Hclose & _ & _ & _ & _ & _ & Hidle).
  - right. exists quota_error. reflexivity.
  - split; [exact Hclose | apply Hidle].
Defined.

(** * Further properties of [server.js] *)

(** ** Start-up, beyond the missing settings *)

Section StartupCases.

Variable JSON_parse : jsstring → Completion JsValue.
Variable listening : JsValue → Completion unit.

Lemma main_malformed (env : gmap string jsstring) (p c : jsstring) (e : JsError) :
  env !! "GOOGLE_PROJECT_ID" = Some p → p ≠ [] →
  env !! "GOOGLE_CREDENTIALS_JSON" = Some c → c ≠ [] →
  JSON_parse c = Throw e →
  main JSON_parse listening env tt = (tt, [], Throw e).
Proof.
  intros Hp Hpne Hc Hcne Hparse.
  unfold main, PROJECT_ID, CREDENTIALS_JSON, env_get. rewrite Hp, Hc.
  destruct p as [|p0 p]; [contradiction|]. destruct c as [|c0 c]; [contradiction|].
  cbn [ToBoolean negb orb ToString]. js_run. rewrite Hparse. reflexivity.
Qed.

(** The settings, read as the configuration check reads them. *)
Lemma setting_truthy (env : gmap string jsstring) (name : string) :
  ToBoolean (env_get env name) = true ↔ ∃ v, env !! name = Some v ∧ v ≠ [].
Proof.
  unfold env_get. destruct (env !! name) as [[|x v]|]; cbn; split.
  - discriminate.
  - intros (v & [= <-] & Hne). contradiction.
  - intros _. exists (x :: v). split; [reflexivity | discriminate].
  - reflexivity.
  - discriminate.
  - intros (v & [=] & _).
Qed.

End StartupCases.

(** X1.  A required setting that is present but empty counts as missing:
    the process prints the diagnostic and exits with status 1, and neither
    parses the credentials nor listens. *)
Theorem startup_rejects_empty_settings
    (JSON_parse : jsstring → Completion JsValue) (listening : JsValue → Completion unit)
    (env : gmap string jsstring) :
  env !! "GOOGLE_PROJECT_ID" = Some [] ∨ env !! "GOOGLE_CREDENTIALS_JSON" = Some [] →
  main JSON_parse listening env tt
  = (tt, [ConsoleError config_diagnostic None; ProcessExit 1], Normal tt).
Proof.
  intros H. apply main_missing.
  destruct H as [H | H]; [left | right].
  - destruct (ToBoolean (PROJECT_ID env)) eqn:Ht; [|reflexivity].
    apply setting_truthy in Ht as (v & Hv & Hne). congruence.
  - destruct (ToBoolean (CREDENTIALS_JSON env)) eqn:Ht; [|reflexivity].
    apply setting_truthy in Ht as (v & Hv & Hne). congruence.
Qed.

Lemma startup_rejects_empty_settings_witness :
  main parse_empty_object binds (<["GOOGLE_PROJECT_ID" := []]> sample_env) tt
  = (tt, [ConsoleError config_diagnostic None; ProcessExit 1], Normal tt).
Proof.
  apply (startup_rejects_empty_settings parse_empty_object binds
           (<["GOOGLE_PROJECT_ID" := []]> sample_env)).
  left. vm_compute. reflexivity.
Defined.

(** X2.  With both required settings present, credentials that are not
    valid JSON make [JSON.parse] throw out of the module body: the exception
    is uncaught, nothing was printed, [process.exit] was not called, no
    client was built and the server does not listen. *)
Theorem startup_malformed_credentials
    (JSON_parse : jsstring → Completion JsValue) (listening : JsValue → Completion unit)
    (env : gmap string jsstring)
    (p c : jsstring) (e : JsError) :
  env !! "GOOGLE_PROJECT_ID" = Some p → p ≠ [] →
  env !! "GOOGLE_CREDENTIALS_JSON" = Some c → c ≠ [] →
  JSON_parse c = Throw e →
  completion (main JSON_parse listening env tt) = Throw e
  ∧ trace (main JSON_parse listening env tt) = [].
Proof.
  intros Hp Hpne Hc Hcne Hparse.
  rewrite (main_malformed JSON_parse listening env p c e Hp Hpne Hc Hcne Hparse).
  split; reflexivity.
Qed.

Lemma startup_malformed_credentials_witness :
  trace (main parse_empty_object binds
           (<["GOOGLE_CREDENTIALS_JSON" := utf16 "{oops"]> sample_env) tt) = [].
Proof.
  apply (startup_malformed_credentials parse_empty_object binds
           (<["GOOGLE_CREDENTIALS_JSON" := utf16 "{oops"]> sample_env)
           (utf16 "broadster") (utf16 "{oops")
           (mkError (utf16 "SyntaxError") (utf16 "Unexpected token"))).
  - vm_compute. reflexivity.
  - vm_compute. discriminate.
  - vm_compute. reflexivity.
  - vm_compute. discriminate.
  - vm_compute. reflexivity.
Defined.

(** X3.  The server listens exactly when both required settings are
    present and not empty and the credentials parse; and a run never both
    exits and listens. *)
Theorem startup_listens_iff
    (JSON_parse : jsstring → Completion JsValue) (listening : JsValue → Completion unit)
    (env : gmap string jsstring) :
  ((∃ port, ServerListen port ∈ trace (main JSON_parse listening env tt))
   ↔ ∃ p c creds,
       env !! "GOOGLE_PROJECT_ID" = Some p ∧ p ≠ []
       ∧ env !! "GOOGLE_CREDENTIALS_JSON" = Some c ∧ c ≠ []
       ∧ JSON_parse c = Normal creds)
  ∧ ¬ ∃ code port,
        ProcessExit code ∈ trace (main JSON_parse listening env tt)
        ∧ ServerListen port ∈ trace (main JSON_parse listening env tt).
Proof.
  destruct (ToBoolean (PROJECT_ID env)) eqn:Hp.
  2:{ assert (Hrun := main_missing JSON_parse listening env (or_introl Hp)).
      rewrite Hrun. cbn. split.
      - split.
        + intros (port & Hin). rewrite !elem_of_cons, elem_of_nil in Hin.
          destruct Hin as [[=]|[[=]|[]]].
        + intros (p & c & creds & Hsome & Hne & _).
          assert (ToBoolean (PROJECT_ID env) = true) as Ht
            by (apply setting_truthy; eauto).
          congruence.
      - intros (code & port & _ & Hin). rewrite !elem_of_cons, elem_of_nil in Hin.
        destruct Hin as [[=]|[[=]|[]]]. }
  destruct (ToBoolean (CREDENTIALS_JSON env)) eqn:Hc.
  2:{ assert (Hrun := main_missing JSON_parse listening env (or_intror Hc)).
      rewrite Hrun. cbn. split.
      - split.
        + intros (port & Hin). rewrite !elem_of_cons, elem_of_nil in Hin.
          destruct Hin as [[=]|[[=]|[]]].
        + intros (p & c & creds & _ & _ & Hsome & Hne & _).
          assert (ToBoolean (CREDENTIALS_JSON env) = true) as Ht
            by (apply setting_truthy; eauto).
          congruence.
      - intros (code & port & _ & Hin). rewrite !elem_of_cons, elem_of_nil in Hin.
        destruct Hin as [[=]|[[=]|[]]]. }
  apply setting_truthy in Hp as (p & Hp & Hpne).
  apply setting_truthy in Hc as (c & Hc & Hcne).
  destruct (JSON_parse c) as [creds|e] eqn:Hparse.
  - destruct (main_configured_calls JSON_parse listening env p c creds
                Hp Hpne Hc Hcne Hparse) as (rest & Hrun & Hrest).
    rewrite Hrun. split.
    + split.
      * intros _. exists p, c, creds. repeat split; assumption.
      * intros _. exists (PORT env). rewrite !elem_of_cons. right; left. reflexivity.
    + intros (code & q & Hin & _). rewrite !elem_of_cons in Hin.
      destruct Hin as [[=]|[[=]|Hin]].
      destruct Hrest as [-> | [msg ->]].
      * apply elem_of_nil in Hin. contradiction.
      * rewrite elem_of_cons, elem_of_nil in Hin. destruct Hin as [[=]|[]].
  - rewrite (main_malformed JSON_parse listening env p c e Hp Hpne Hc Hcne Hparse). cbn. split.
    + split.
      * intros (port & Hin). apply elem_of_nil in Hin. contradiction.
      * intros (p' & c' & creds & _ & _ & Hc' & _ & Hparse').
        rewrite Hc in Hc'. injection Hc' as <-. congruence.
    + intros (code & port & Hin & _). apply elem_of_nil in Hin. contradiction.
Qed.

Lemma js_or_setting (env : gmap string jsstring) (name : string) (fallback : JsValue) :
  js_or (env_get env name) fallback
  = match env !! name with
    | Some (x :: v) => JsString (x :: v)
    | _ => fallback
    end.
Proof.
  unfold js_or, env_get. destruct (env !! name) as [[|x v]|]; reflexivity.
Qed.

Lemma port_setting (env : gmap string jsstring) :
  (∀ v : jsstring, env !! "PORT" = Some v → v ≠ [] → PORT env = JsString v)
  ∧ (env !! "PORT" = None ∨ env !! "PORT" = Some [] → PORT env = JsNumber default_port).
Proof.
  unfold PORT. rewrite js_or_setting. split.
  - intros v Hv Hne. destruct (env !! "PORT") as [[|x w]|]; congruence.
  - intros H. destruct (env !! "PORT") as [[|x w]|]; try reflexivity.
    destruct H as [H|H]; congruence.
Qed.

(** The [listen] call of a configured server and the log line of its
    callback. *)
Lemma main_listen
    (JSON_parse : jsstring → Completion JsValue) (listening : JsValue → Completion unit)
    (env : gmap string jsstring) (p c : jsstring) (creds : JsValue) (port : jsstring) :
  env !! "GOOGLE_PROJECT_ID" = Some p → p ≠ [] →
  env !! "GOOGLE_CREDENTIALS_JSON" = Some c → c ≠ [] →
  JSON_parse c = Normal creds →
  ToString (PORT env) = Normal port →
  ServerListen (PORT env) ∈ trace (main JSON_parse listening env tt)
  ∧ (listening (PORT env) = Normal tt →
       ConsoleLog (utf16 "Broadster-Live サーバー起動中 (Port: " ++ port ++ utf16 ")")
         ∈ trace (main JSON_parse listening env tt))
  ∧ (∀ e, listening (PORT env) = Throw e →
          completion (main JSON_parse listening env tt) = Throw e
          ∧ ∀ msg, ConsoleLog msg ∉ trace (main JSON_parse listening env tt)).
Proof.
  intros Hp Hpne Hc Hcne Hparse Hport.
  destruct (main_configured JSON_parse listening env p c creds Hp Hpne Hc Hcne Hparse)
    as (port' & Hport' & Hrun).
  rewrite Hport in Hport'. injection Hport' as <-.
  rewrite Hrun. destruct (listening (PORT env)) as [[]|e]; cbn [trace completion fst snd].
  - split; [rewrite !elem_of_cons; right; left; reflexivity|].
    split; [intros _; rewrite !elem_of_cons; right; right; left; reflexivity|].
    intros e [=].
  - split; [rewrite !elem_of_cons; right; left; reflexivity|].
    split; [intros [=]|].
    intros e' [= <-]. split; [reflexivity|].
    intros msg Hin. rewrite !elem_of_cons, elem_of_nil in Hin.
    destruct Hin as [[=]|[[=]|[]]].
Qed.

(** X4.  A configured server calls [listen] with [PORT] as given in the
    environment, a string that is passed on unconverted, and with the number
    3000 when [PORT] is absent or empty.  The start-up log line is written by
    the callback of [listen]: it names the same port when the port is bound,
    and is not written at all when the call fails. *)
Theorem startup_port
    (JSON_parse : jsstring → Completion JsValue) (listening : JsValue → Completion unit)
    (env : gmap string jsstring)
    (p c : jsstring) (creds : JsValue) :
  env !! "GOOGLE_PROJECT_ID" = Some p → p ≠ [] →
  env !! "GOOGLE_CREDENTIALS_JSON" = Some c → c ≠ [] →
  JSON_parse c = Normal creds →
  (∀ v : jsstring, env !! "PORT" = Some v → v ≠ [] →
     ServerListen (JsString v) ∈ trace (main JSON_parse listening env tt)
     ∧ (listening (JsString v) = Normal tt →
          ConsoleLog (utf16 "Broadster-Live サーバー起動中 (Port: " ++ v ++ utf16 ")")
            ∈ trace (main JSON_parse listening env tt))
     ∧ (∀ e, listening (JsString v) = Throw e →
             completion (main JSON_parse listening env tt) = Throw e
             ∧ ∀ msg, ConsoleLog msg ∉ trace (main JSON_parse listening env tt)))
  ∧ (env !! "PORT" = None ∨ env !! "PORT" = Some [] →
       ServerListen (JsNumber default_port) ∈ trace (main JSON_parse listening env tt)
       ∧ (listening (JsNumber default_port) = Normal tt →
            ConsoleLog (utf16 "Broadster-Live サーバー起動中 (Port: " ++ utf16 "3000"
                        ++ utf16 ")")
              ∈ trace (main JSON_parse listening env tt))
       ∧ (∀ e, listening (JsNumber default_port) = Throw e →
               completion (main JSON_parse listening env tt) = Throw e
               ∧ ∀ msg, ConsoleLog msg ∉ trace (main JSON_parse listening env tt))).
Proof.
  intros Hp Hpne Hc Hcne Hparse.
  destruct (port_setting env) as [Hset Hdefault].
  split.
  - intros v Hv Hvne. rewrite <- (Hset v Hv Hvne).
    apply (main_listen JSON_parse listening env p c creds v Hp Hpne Hc Hcne Hparse).
    rewrite (Hset v Hv Hvne). reflexivity.
  - intros H. rewrite <- (Hdefault H).
    apply (main_listen JSON_parse listening env p c creds (utf16 "3000")
             Hp Hpne Hc Hcne Hparse).
    rewrite (Hdefault H). reflexivity.
Qed.

Lemma startup_port_witness :
  ServerListen (JsString (utf16 "10000"))
    ∈ trace (main parse_empty_object binds (<["PORT" := utf16 "10000"]> sample_env) tt)
  ∧ ConsoleLog (utf16 "Broadster-Live サーバー起動中 (Port: " ++ utf16 "3000" ++ utf16 ")")
      ∈ trace (main parse_empty_object binds sample_env tt)
  ∧ ∀ msg, ConsoleLog msg ∉ trace (main parse_empty_object in_use sample_env tt).
Proof.
  split; [|split].
  - destruct (startup_port parse_empty_object binds (<["PORT" := utf16 "10000"]> sample_env)
                (utf16 "broadster") (utf16 "{}") (JsObject [])) as [H _].
    + vm_compute. reflexivity.
    + vm_compute. discriminate.
    + vm_compute. reflexivity.
    + vm_compute. discriminate.
    + vm_compute. reflexivity.
    + apply (H (utf16 "10000")); [vm_compute; reflexivity | vm_compute; discriminate].
  - destruct (startup_port parse_empty_object binds sample_env
                (utf16 "broadster") (utf16 "{}") (JsObject [])) as [_ H].
    + vm_compute. reflexivity.
    + vm_compute. discriminate.
    + vm_compute. reflexivity.
    + vm_compute. discriminate.
    + vm_compute. reflexivity.
    + apply H; [left; vm_compute; reflexivity | reflexivity].
  - destruct (startup_port parse_empty_object in_use sample_env
                (utf16 "broadster") (utf16 "{}") (JsObject [])) as [_ H].
    + vm_compute. reflexivity.
    + vm_compute. discriminate.
    + vm_compute. reflexivity.
    + vm_compute. discriminate.
    + vm_compute. reflexivity.
    + destruct H as (_ & _ & H); [left; vm_compute; reflexivity|].
      apply (H (mkError (utf16 "Error")
                  (utf16 "listen EADDRINUSE: address already in use"))).
      reflexivity.
Defined.

(** X5.  The backend client of a configured server is built with the
    region given in [GOOGLE_LOCATION], and with [asia-northeast1] when that
    setting is the empty string. *)
Theorem startup_location
    (JSON_parse : jsstring → Completion JsValue) (listening : JsValue → Completion unit)
    (env : gmap string jsstring)
    (p c : jsstring) (creds : JsValue) :
  env !! "GOOGLE_PROJECT_ID" = Some p → p ≠ [] →
  env !! "GOOGLE_CREDENTIALS_JSON" = Some c → c ≠ [] →
  JSON_parse c = Normal creds →
  (∀ r : jsstring, env !! "GOOGLE_LOCATION" = Some r → r ≠ [] →
     NewVertexAI (JsString p) (JsString r) creds ∈ trace (main JSON_parse listening env tt))
  ∧ (env !! "GOOGLE_LOCATION" = Some [] →
       NewVertexAI (JsString p) (JsString (utf16 "asia-northeast1")) creds
         ∈ trace (main JSON_parse listening env tt)).
Proof.
  intros Hp Hpne Hc Hcne Hparse.
  destruct (main_configured_calls JSON_parse listening env p c creds
              Hp Hpne Hc Hcne Hparse) as (rest & Hrun & _).
  rewrite Hrun. unfold LOCATION. rewrite js_or_setting.
  split.
  - intros r Hr Hrne. destruct (env !! "GOOGLE_LOCATION") as [[|x w]|] eqn:Hq;
      try congruence.
    injection Hr as <-. apply list_elem_of_here.
  - intros Hr. destruct (env !! "GOOGLE_LOCATION") as [[|x w]|] eqn:Hq; try congruence.
    apply list_elem_of_here.
Qed.

Lemma startup_location_witness :
  NewVertexAI (JsString (utf16 "broadster")) (JsString (utf16 "us-central1")) (JsObject [])
    ∈ trace (main parse_empty_object binds
               (<["GOOGLE_LOCATION" := utf16 "us-central1"]> sample_env) tt)
  ∧ NewVertexAI (JsString (utf16 "broadster")) (JsString (utf16 "asia-northeast1"))
      (JsObject [])
      ∈ trace (main parse_empty_object binds (<["GOOGLE_LOCATION" := []]> sample_env) tt).
Proof.
  split.
  - destruct (startup_location parse_empty_object binds
                (<["GOOGLE_LOCATION" := utf16 "us-central1"]> sample_env)
                (utf16 "broadster") (utf16 "{}") (JsObject [])) as [H _].
    + vm_compute. reflexivity.
    + vm_compute. discriminate.
    + vm_compute. reflexivity.
    + vm_compute. discriminate.
    + vm_compute. reflexivity.
    + apply (H (utf16 "us-central1")); [vm_compute; reflexivity | vm_compute; discriminate].
  - destruct (startup_location parse_empty_object binds
                (<["GOOGLE_LOCATION" := []]> sample_env)
                (utf16 "broadster") (utf16 "{}") (JsObject [])) as [_ H].
    + vm_compute. reflexivity.
    + vm_compute. discriminate.
    + vm_compute. reflexivity.
    + vm_compute. discriminate.
    + vm_compute. reflexivity.
    + apply H. vm_compute. reflexivity.
Defined.

(** ** The suggestion endpoint on arbitrary bodies *)

Section SuggestCases.

Variable backend : Backend.

Lemma suggest_shape (body : JsValue) : SuggestShape body (suggest backend body tt).
Proof.
  destruct (Get body (utf16 "text")) as [v|e] eqn:Hget.
  2:{ rewrite (suggest_unreadable backend body e Hget). apply shape_thrown. left. exact Hget. }
  destruct (ToBoolean v) eqn:Hv.
  2:{ rewrite (suggest_falsy backend body v Hget Hv). eapply shape_rejected; eauto. }
  destruct (ToString v) as [embedded|e] eqn:Hs.
  2:{ rewrite (suggest_unprintable backend body v e Hget Hv Hs).
      apply shape_thrown. right. eauto. }
  rewrite (suggest_truthy backend body v embedded Hget Hv Hs).
  destruct (generateContent_outcome backend _ _) as [result|e].
  - destruct (first_text (response result)) as [[t0|]|e].
    + eapply shape_answered; eauto.
    + eapply shape_failed; eauto.
    + eapply shape_failed; eauto.
  - eapply shape_failed; eauto.
Qed.

End SuggestCases.

Lemma rejected_run_observed :
  responses (trace rejected_run)
  = [(400%Z, JsObject [(utf16 "error", JsString (utf16 "No text"))])]
  ∧ backend_calls (trace rejected_run) = [].
Proof. split; reflexivity. Qed.

Lemma answered_run_observed (embedded t0 : jsstring) :
  responses (trace (answered_run embedded t0))
  = [(200%Z, JsObject [(utf16 "suggestion", JsString (trim t0))])]
  ∧ backend_calls (trace (answered_run embedded t0)) = [the_call embedded].
Proof. split; reflexivity. Qed.

Lemma thrown_run_observed (e : JsError) :
  responses (trace (tt, @nil Effect, @Throw unit e)) = []
  ∧ backend_calls (trace (tt, @nil Effect, @Throw unit e)) = [].
Proof. split; reflexivity. Qed.

(** Rewrites what a run of one of the four shapes shows. *)
Ltac observe_shape :=
  rewrite ?(proj1 rejected_run_observed), ?(proj2 rejected_run_observed),
    ?(proj1 (answered_run_observed _ _)), ?(proj2 (answered_run_observed _ _)),
    ?(proj1 (thrown_run_observed _)), ?(proj2 (thrown_run_observed _)),
    ?failed_run_responses, ?failed_run_calls.

(** X6.  Whatever the body and whatever the backend does, the handler
    writes at most one HTTP response and sends at most one request to the
    backend, a completion request to the model [gemini-2.5-flash]. *)
Theorem suggest_at_most_once (backend : Backend) (body : JsValue) :
  (length (responses (trace (suggest backend body tt))) ≤ 1)%nat
  ∧ (length (backend_calls (trace (suggest backend body tt))) ≤ 1)%nat
  ∧ ∀ e, e ∈ backend_calls (trace (suggest backend body tt)) →
         ∃ prompt, e = GenerateContent (utf16 "gemini-2.5-flash") prompt.
Proof.
  destruct (suggest_shape backend body); observe_shape; cbn [length].
  - split; [lia|]. split; [lia|]. intros x Hx. apply elem_of_nil in Hx. contradiction.
  - split; [lia|]. split; [lia|]. intros x Hx. apply elem_of_nil in Hx. contradiction.
  - split; [lia|]. split; [lia|]. intros x Hx.
    rewrite elem_of_cons, elem_of_nil in Hx. destruct Hx as [->|[]]. eexists. reflexivity.
  - split; [lia|]. split; [lia|]. intros x Hx.
    rewrite elem_of_cons, elem_of_nil in Hx. destruct Hx as [->|[]]. eexists. reflexivity.
Qed.

(** X7.  Of a response that the handler itself writes, through [res.json]
    or [res.status(...).json], the status tells whether the handler reached
    the backend: a 400 carries [{"error":"No text"}] and no request was sent;
    a 200 carries a [suggestion] and a 500 an [error], each after exactly one
    request.  The handler writes no other status.  What the framework answers
    when the handler throws is not a response of the handler. *)
Theorem suggest_status_and_calls
    (backend : Backend) (body : JsValue) (status : Z) (answer : JsValue) :
  (status, answer) ∈ responses (trace (suggest backend body tt)) →
  (status = 400%Z
   ∧ answer = JsObject [(utf16 "error", JsString (utf16 "No text"))]
   ∧ backend_calls (trace (suggest backend body tt)) = [])
  ∨ (status = 200%Z
     ∧ (∃ t, answer = JsObject [(utf16 "suggestion", JsString t)])
     ∧ length (backend_calls (trace (suggest backend body tt))) = 1%nat)
  ∨ (status = 500%Z
     ∧ (∃ m, answer = JsObject [(utf16 "error", JsString m)])
     ∧ length (backend_calls (trace (suggest backend body tt))) = 1%nat).
Proof.
  destruct (suggest_shape backend body); observe_shape; intros Hin.
  - apply elem_of_nil in Hin. contradiction.
  - rewrite elem_of_cons, elem_of_nil in Hin. destruct Hin as [[= -> ->]|[]].
    left. repeat split.
  - rewrite elem_of_cons, elem_of_nil in Hin. destruct Hin as [[= -> ->]|[]].
    right; right. split; [reflexivity|]. split; [eexists; reflexivity | reflexivity].
  - rewrite elem_of_cons, elem_of_nil in Hin. destruct Hin as [[= -> ->]|[]].
    right; left. split; [reflexivity|]. split; [eexists; reflexivity | reflexivity].
Qed.

Lemma suggest_status_and_calls_witness :
  length (backend_calls
            (trace (suggest (answering (utf16 "x"))
                      (JsObject [(utf16 "text", JsBool true)]) tt))) = 1%nat.
Proof.
  destruct (suggest_status_and_calls (answering (utf16 "x"))
              (JsObject [(utf16 "text", JsBool true)]) 200
              (JsObject [(utf16 "suggestion", JsString (utf16 "x"))]))
    as [(H & _)|[(_ & _ & H)|(H & _)]].
  - vm_compute. apply list_elem_of_here.
  - discriminate H.
  - exact H.
  - discriminate H.
Defined.

(** X8.  The handler itself writes no response exactly when it throws,
    that is when the promise it returns is rejected, and it throws only before
    the [try]: when [req.body] is [null] or [undefined], or when the text
    cannot be converted to a string.  The handler then has logged nothing and
    has not called the backend; the rejected promise is left to the
    framework. *)
Theorem suggest_unanswered_iff_thrown (backend : Backend) (body : JsValue) :
  (responses (trace (suggest backend body tt)) = []
   ↔ ∃ e, completion (suggest backend body tt) = Throw e)
  ∧ (∀ e, completion (suggest backend body tt) = Throw e →
          trace (suggest backend body tt) = []
          ∧ (Get body (utf16 "text") = Throw e
             ∨ ∃ v, Get body (utf16 "text") = Normal v ∧ ToBoolean v = true
                    ∧ ToString v = Throw e)).
Proof.
  destruct (suggest_shape backend body) as [e H|v Hg Hv|v emb e Hg Hv Hs|v emb t0 Hg Hv Hs];
    observe_shape; cbn [completion trace fst snd rejected_run failed_run answered_run].
  - split.
    + split; [intros _; exists e; reflexivity | reflexivity].
    + intros e' [= <-]. split; [reflexivity | exact H].
  - split.
    + split; [discriminate | intros (e & [=])].
    + intros e [=].
  - split.
    + split; [discriminate | intros (e' & [=])].
    + intros e' [=].
  - split.
    + split; [discriminate | intros (e & [=])].
    + intros e [=].
Qed.

(** X9.  The 400 answer is given exactly when [req.body.text] reads as a
    falsy value; in particular every array body, which has no property
    [text], is answered 400. *)
Theorem suggest_rejected_iff_falsy (backend : Backend) (body : JsValue) :
  (suggest backend body tt = rejected_run
   ↔ ∃ v, Get body (utf16 "text") = Normal v ∧ ToBoolean v = false)
  ∧ ∀ elems, suggest backend (JsArray elems) tt = rejected_run.
Proof.
  split.
  - split.
    + destruct (suggest_shape backend body)
        as [e H|v Hg Hv|v emb e Hg Hv Hs|v emb t0 Hg Hv Hs].
      * discriminate.
      * intros _. exists v. split; assumption.
      * discriminate.
      * discriminate.
    + intros (v & Hg & Hv). exact (suggest_falsy backend body v Hg Hv).
  - intros elems. apply (suggest_falsy backend _ JsUndefined); reflexivity.
Qed.

Lemma trim_white_space (s : jsstring) :
  Forall (λ c, is_white_space c = true) s → trim s = [].
Proof.
  intros H. unfold trim.
  assert (Hs : trimStart s = []).
  { induction H as [|c s Hc _ IH]; [reflexivity|]. simpl. rewrite Hc. exact IH. }
  rewrite Hs. reflexivity.
Qed.

(** X10.  A backend text made of white space only is not an error: the
    answer is HTTP 200 with the empty string as suggestion. *)
Theorem suggest_blank_output
    (backend : Backend) (props : list (jsstring * JsValue)) (s t0 : jsstring)
    (result : GenerateContentResult) :
  own_property (utf16 "text") props = Some (JsString s) → s ≠ [] →
  generateContent_outcome backend (getGenerativeModel "gemini-2.5-flash")
    (the_prompt s) = Normal result →
  first_text (response result) = Normal (Some t0) →
  Forall (λ c, is_white_space c = true) t0 →
  responses (trace (suggest backend (JsObject props) tt))
  = [(200%Z, JsObject [(utf16 "suggestion", JsString [])])].
Proof.
  intros Hp Hs Hres Hfirst Hws.
  assert (Ht : ToBoolean (JsString s) = true) by (destruct s; [contradiction | reflexivity]).
  assert (Hget : Get (JsObject props) (utf16 "text") = Normal (JsString s))
    by (simpl; rewrite Hp; reflexivity).
  rewrite (suggest_truthy backend _ _ s Hget Ht eq_refl), Hres, Hfirst.
  fold (answered_run s t0). rewrite (proj1 (answered_run_observed s t0)).
  rewrite (trim_white_space t0 Hws). reflexivity.
Qed.

Lemma suggest_blank_output_witness :
  responses (trace (suggest (answering [0x20; 0x0A; 0x3000])
                      (JsObject [(utf16 "text", JsString (utf16 "hello"))]) tt))
  = [(200%Z, JsObject [(utf16 "suggestion", JsString [])])].
Proof.
  apply (suggest_blank_output (answering [0x20; 0x0A; 0x3000])
           [(utf16 "text", JsString (utf16 "hello"))] (utf16 "hello") [0x20; 0x0A; 0x3000]
           (mkResult (text_response [0x20; 0x0A; 0x3000]))).
  - vm_compute. reflexivity.
  - vm_compute. discriminate.
  - reflexivity.
  - reflexivity.
  - repeat constructor.
Defined.

(** ** The relay over whole sessions *)

Section SessionRuns.

Variable rt : Runtime.

Lemma ws_sends_app (t1 t2 : list Effect) :
  ws_sends (t1 ++ t2) = ws_sends t1 ++ ws_sends t2.
Proof. apply omap_app. Qed.

Lemma run_final_cons (i : Input) (rest : list Input) (s : Session) :
  final (run rt (i :: rest) s) = final (run rt rest (final (step rt i s))).
Proof. rewrite run_cons. reflexivity. Qed.

(** Running two event sequences one after the other. *)
Lemma run_app (pre post : list Input) (s : Session) :
  trace (run rt (pre ++ post) s) = trace (run rt pre s) ++ trace (run rt post (final (run rt pre s)))
  ∧ final (run rt (pre ++ post) s) = final (run rt post (final (run rt pre s))).
Proof.
  revert s. induction pre as [|i pre IH]; intros s.
  - split; reflexivity.
  - cbn [app]. rewrite !run_trace_cons, !run_final_cons.
    destruct (IH (final (step rt i s))) as [Ht Hf].
    rewrite Ht, Hf, app_assoc. split; reflexivity.
Qed.

Lemma run_frame (message : list N) (rest : list Input) (s : Session) :
  run rt (BrowserFrame message :: rest) s = run rt rest s.
Proof.
  rewrite run_cons, step_run. cbn [final trace completion fst snd app].
  destruct (run rt rest s) as [[s1 t1] c1]. reflexivity.
Qed.

(** A socket that is not open stays so. *)
Lemma step_not_open (i : Input) (s : Session) :
  readyState s ≠ WebSocket_OPEN →
  readyState (final (step rt i s)) ≠ WebSocket_OPEN ∧ ws_sends (trace (step rt i s)) = [].
Proof.
  intros Hr. apply Z.eqb_neq in Hr as Hb.
  rewrite step_run. destruct i as [m| |item| |e]; cbn.
  - split; [exact Hr | reflexivity].
  - split; [discriminate|]. destruct (close_listener s); reflexivity.
  - destruct (downstream s), (carried_text item), (has_global_WebSocket rt);
      rewrite ?Hb; cbn; (split; [exact Hr | reflexivity]).
  - destruct (downstream s); cbn; (split; [exact Hr | reflexivity]).
  - destruct (downstream s); cbn; (split; [exact Hr | reflexivity]).
Qed.

Lemma run_not_open (inputs : list Input) (s : Session) :
  readyState s ≠ WebSocket_OPEN → ws_sends (trace (run rt inputs s)) = [].
Proof.
  revert s. induction inputs as [|i rest IH]; intros s Hr; [reflexivity|].
  rewrite run_trace_cons, ws_sends_app.
  destruct (step_not_open i s Hr) as [Hr' Hs].
  rewrite Hs, (IH _ Hr'). reflexivity.
Qed.

(** A loop that is not running stays so, sends nothing and logs no error. *)
Lemma step_not_running (i : Input) (s : Session) :
  downstream s ≠ Running →
  downstream (final (step rt i s)) ≠ Running
  ∧ ws_sends (trace (step rt i s)) = []
  ∧ filter (λ e, is_console_error e = true) (trace (step rt i s)) = [].
Proof.
  intros Hd. rewrite step_run. destruct i as [m| |item| |e]; cbn.
  - repeat split; assumption.
  - split; [exact Hd|]. destruct (close_listener s); split; reflexivity.
  - destruct (downstream s) eqn:E; try congruence; cbn; rewrite ?E;
      repeat split; try discriminate; reflexivity.
  - destruct (downstream s) eqn:E; try congruence; cbn; rewrite ?E;
      repeat split; try discriminate; reflexivity.
  - destruct (downstream s) eqn:E; try congruence; cbn; rewrite ?E;
      repeat split; try discriminate; reflexivity.
Qed.

Lemma run_not_running (inputs : list Input) (s : Session) :
  downstream s ≠ Running →
  ws_sends (trace (run rt inputs s)) = []
  ∧ filter (λ e, is_console_error e = true) (trace (run rt inputs s)) = [].
Proof.
  revert s. induction inputs as [|i rest IH]; intros s Hd; [split; reflexivity|].
  rewrite run_trace_cons, ws_sends_app, filter_app.
  destruct (step_not_running i s Hd) as (Hd' & Hs & He).
  destruct (IH _ Hd') as [Hs' He'].
  rewrite Hs, He, Hs', He'. split; reflexivity.
Qed.

End SessionRuns.

(** C3 fails on a runtime without a global [WebSocket].  Line 3 imports
    only [WebSocketServer], so where the global is not defined the first item
    that carries text makes line 56 throw a [ReferenceError]; the [catch] of
    the loop logs it and the loop is over: neither that item nor any later one
    is sent, although the socket is open. *)
Theorem text_item_throws_without_global
    (rt : Runtime) (item : GenerateContentResponse) (t : jsstring) (s : Session) :
  has_global_WebSocket rt = false →
  downstream s = Running → readyState s = WebSocket_OPEN →
  carried_text item = Some t →
  step rt (StreamYield item) s
  = (set_downstream Finished s,
     [ConsoleError (utf16 "Geminiストリーム受信エラー:")
        (Some (ReferenceError "WebSocket is not defined"))],
     Normal tt)
  ∧ ∀ rest : list Input, ws_sends (trace (run rt (StreamYield item :: rest) s)) = [].
Proof.
  intros Hg Hd Hr Ht.
  assert (Hstep : step rt (StreamYield item) s
                  = (set_downstream Finished s,
                     [ConsoleError (utf16 "Geminiストリーム受信エラー:")
                        (Some (ReferenceError "WebSocket is not defined"))],
                     Normal tt))
    by (rewrite step_run, Hd, Ht, Hg; reflexivity).
  split; [exact Hstep|].
  intros rest. rewrite run_trace_cons, Hstep.
  destruct (run_not_running rt rest (set_downstream Finished s)) as [Hnone _];
    [discriminate|].
  cbn [final trace fst snd]. rewrite ws_sends_app, Hnone. reflexivity.
Qed.

Lemma text_item_throws_without_global_witness :
  ws_sends (trace (run node20 [StreamYield (text_response (utf16 "hello"));
                               StreamYield (text_response (utf16 "again"))] active))
  = []
  ∧ trace (step node20 (StreamYield (text_response (utf16 "hello"))) active)
    = [ConsoleError (utf16 "Geminiストリーム受信エラー:")
         (Some (ReferenceError "WebSocket is not defined"))].
Proof.
  destruct (text_item_throws_without_global node20 (text_response (utf16 "hello"))
              (utf16 "hello") active) as [Hstep Hrun].
  - reflexivity.
  - vm_compute. reflexivity.
  - vm_compute. reflexivity.
  - vm_compute. reflexivity.
  - split; [apply Hrun|]. rewrite Hstep. reflexivity.
Defined.

(** X11.  Line 55 dereferences the item without optional chaining, yet it
    never throws, whatever the shape of the item: it runs only after the
    optional chain of line 54 found a text.  The one exception the loop body
    can raise is the [ReferenceError] of line 56, for an item that carries
    text on a runtime without a global [WebSocket].  On a runtime that
    defines it the body never throws, and a yielded item never ends the loop,
    never changes the session and never logs an error. *)
Theorem loop_body_exceptions
    (rt : Runtime) (item : GenerateContentResponse) (s : Session) :
  (has_global_WebSocket rt = true →
     completion (forward rt item s) = Normal tt
     ∧ final (forward rt item s) = s
     ∧ final (step rt (StreamYield item) s) = s
     ∧ filter (λ e, is_console_error e = true) (trace (step rt (StreamYield item) s)) = [])
  ∧ (∀ e, completion (forward rt item s) = Throw e →
          e = ReferenceError "WebSocket is not defined"
          ∧ has_global_WebSocket rt = false
          ∧ carried_text item ≠ None)
  ∧ (carried_text item = None → forward rt item s = (s, [], Normal tt)).
Proof.
  rewrite forward_run, step_run. split; [|split].
  - intros ->.
    destruct (downstream s), (carried_text item) as [t|];
      destruct (readyState s =? WebSocket_OPEN)%Z; repeat split.
  - intros e.
    destruct (carried_text item) as [t|]; [|intros [=]].
    destruct (has_global_WebSocket rt).
    + destruct (readyState s =? WebSocket_OPEN)%Z; intros [=].
    + intros [= <-]. repeat split. discriminate.
  - intros ->. reflexivity.
Qed.

Lemma loop_body_exceptions_witness :
  completion (forward node22 (text_response (utf16 "hi")) active) = Normal tt
  ∧ forward node22 empty_item active = (active, [], Normal tt).
Proof.
  destruct (loop_body_exceptions node22 (text_response (utf16 "hi")) active)
    as (Hdefined & _ & _).
  destruct (loop_body_exceptions node22 empty_item active) as (_ & _ & Hnone).
  split.
  - apply Hdefined. reflexivity.
  - apply Hnone. reflexivity.
Defined.

(** X12.  The connection handler itself never throws.  It asks the backend
    for a chat first and for the stream only after the chat was opened, with
    the empty message, and makes no other request; it sends nothing to the
    browser. *)
Theorem connection_requests (backend : Backend) (s : Session) :
  completion (on_connection backend s) = Normal tt
  ∧ (backend_calls (trace (on_connection backend s)) = [StartChat]
     ∧ (∃ e, startChat_outcome backend = Throw e)
     ∨ backend_calls (trace (on_connection backend s)) = [StartChat; SendMessageStream []]
       ∧ startChat_outcome backend = Normal tt)
  ∧ ws_sends (trace (on_connection backend s)) = [].
Proof.
  rewrite on_connection_run.
  destruct (startChat_outcome backend) as [[]|e].
  - destruct (sendMessageStream_outcome backend []) as [[]|e];
      (split; [reflexivity|]; split; [right; split; reflexivity | reflexivity]).
  - split; [reflexivity|]. split; [left; split; [reflexivity | eauto] | reflexivity].
Qed.

(** X13.  The handler closes the socket exactly when the backend session
    could not be opened, and then once; a session that was opened has the
    loop running and the [message] listener registered, on a socket left as it
    was. *)
Theorem socket_closed_iff_connect_fails (backend : Backend) (s : Session) :
  (ws_closes (trace (on_connection backend s)) = [None] ↔ connect_fails backend)
  ∧ (ws_closes (trace (on_connection backend s)) = [] ↔ ¬ connect_fails backend)
  ∧ (¬ connect_fails backend →
       downstream (final (on_connection backend s)) = Running
       ∧ message_listener (final (on_connection backend s)) = true
       ∧ readyState (final (on_connection backend s)) = readyState s).
Proof.
  rewrite on_connection_run. unfold connect_fails.
  destruct (startChat_outcome backend) as [[]|e] eqn:Hc.
  - destruct (sendMessageStream_outcome backend []) as [[]|e] eqn:Hm; cbn.
    + split; [split; [discriminate | intros [[e [=]]|[e [=]]]]|].
      split; [split; [intros _ [[e [=]]|[e [=]]] | reflexivity]|].
      intros _. repeat split.
    + split; [split; [intros _; right; eauto | reflexivity]|].
      split; [split; [discriminate | intros H; exfalso; apply H; right; eauto]|].
      intros H. exfalso. apply H. right. eauto.
  - cbn.
    split; [split; [intros _; left; eauto | reflexivity]|].
    split; [split; [discriminate | intros H; exfalso; apply H; left; eauto]|].
    intros H. exfalso. apply H. left. eauto.
Qed.

Lemma socket_closed_iff_connect_fails_witness :
  downstream (final (on_connection (answering (utf16 "x")) accepted)) = Running
  ∧ ws_closes (trace (on_connection (rejecting quota_error) accepted)) = [None].
Proof.
  split.
  - apply (socket_closed_iff_connect_fails (answering (utf16 "x")) accepted).
    intros [[e H]|[e H]]; discriminate H.
  - apply (socket_closed_iff_connect_fails (rejecting quota_error) accepted).
    left. exists quota_error. reflexivity.
Defined.

(** X14.  The [close] listener is registered by line 84, after the [try]
    and so on both of its paths, but only once the two awaits are over.  A
    disconnect after the connection handler has finished is logged, once,
    whether or not the backend session was opened.  A disconnect that
    reaches the socket while no listener is registered, as during the awaits,
    is not logged, and the handler does not log it afterwards either. *)
Theorem disconnect_logged_once_registered
    (rt : Runtime) (backend : Backend) (s : Session) :
  (close_listener (final (on_connection backend s)) = true
   ∧ trace (step rt BrowserClose (final (on_connection backend s)))
     = [ConsoleLog (utf16 "クライアントが切断しました。")]
   ∧ readyState (final (step rt BrowserClose (final (on_connection backend s))))
     = WebSocket_CLOSED)
  ∧ (close_listener s = false →
       trace (step rt BrowserClose s) = []
       ∧ readyState (final (step rt BrowserClose s)) = WebSocket_CLOSED)
  ∧ ConsoleLog (utf16 "クライアントが切断しました。") ∉ trace (on_connection backend s).
Proof.
  split; [|split].
  - assert (Hl : close_listener (final (on_connection backend s)) = true).
    { rewrite on_connection_run.
      destruct (startChat_outcome backend) as [[]|e]; [|reflexivity].
      destruct (sendMessageStream_outcome backend []) as [[]|e]; reflexivity. }
    split; [exact Hl|]. rewrite step_run, Hl. split; reflexivity.
  - intros Hl. rewrite step_run, Hl. split; reflexivity.
  - rewrite on_connection_run.
    destruct (startChat_outcome backend) as [[]|e];
      [destruct (sendMessageStream_outcome backend []) as [[]|e]|];
      cbn [trace fst snd]; rewrite !elem_of_cons, elem_of_nil;
      intros H; repeat (destruct H as [H|H]; [vm_compute in H; discriminate H|]);
      exact H.
Qed.

Lemma disconnect_logged_once_registered_witness :
  trace (step node22 BrowserClose accepted) = []
  ∧ trace (step node22 BrowserClose active)
    = [ConsoleLog (utf16 "クライアントが切断しました。")].
Proof.
  destruct (disconnect_logged_once_registered node22 (answering (utf16 "x")) accepted)
    as (Hafter & Hearly & _).
  split.
  - apply Hearly. reflexivity.
  - apply Hafter.
Defined.

(** X15.  The socket never returns to the open state: from a session
    whose socket is not open, no event sequence makes the handler send a
    frame. *)
Theorem no_frame_once_not_open (rt : Runtime) (inputs : list Input) (s : Session) :
  readyState s ≠ WebSocket_OPEN →
  ws_sends (trace (run rt inputs s)) = []
  ∧ readyState (final (run rt inputs s)) ≠ WebSocket_OPEN.
Proof.
  intros Hr. split; [apply run_not_open; exact Hr|].
  revert s Hr. induction inputs as [|i rest IH]; intros s Hr; [exact Hr|].
  rewrite run_final_cons. apply IH. apply (step_not_open rt i s Hr).
Qed.

Lemma no_frame_once_not_open_witness :
  ws_sends
    (trace (run node22 [StreamYield (text_response (utf16 "late"))]
              (final (on_connection (rejecting quota_error) accepted)))) = [].
Proof.
  apply (no_frame_once_not_open node22 [StreamYield (text_response (utf16 "late"))]
           (final (on_connection (rejecting quota_error) accepted))).
  vm_compute. discriminate.
Defined.

(** X16.  Once the browser has closed the connection nothing more is
    sent to it: the frames of a session are those sent before the close,
    whatever the backend stream yields afterwards. *)
Theorem no_frame_after_browser_close (rt : Runtime) (pre post : list Input) (s : Session) :
  ws_sends (trace (run rt (pre ++ BrowserClose :: post) s))
  = ws_sends (trace (run rt pre s)).
Proof.
  destruct (run_app rt pre (BrowserClose :: post) s) as [Ht _].
  rewrite Ht, ws_sends_app, run_trace_cons, ws_sends_app.
  assert (Hstep : ws_sends (trace (step rt BrowserClose (final (run rt pre s)))) = []).
  { rewrite step_run. cbn. destruct (close_listener _); reflexivity. }
  assert (Hrest : ws_sends (trace (run rt post (final (step rt BrowserClose (final (run rt pre s))))))
                  = []).
  { apply run_not_open. rewrite step_run. cbn. discriminate. }
  rewrite Hstep, Hrest. cbn [app]. apply app_nil_r.
Qed.

(** X17.  Once the backend stream has ended or failed the loop is over:
    the frames of a session are those sent before that event. *)
Theorem no_frame_after_stream_stops (rt : Runtime)
    (pre post : list Input) (stop : Input) (s : Session) :
  stop = StreamDone ∨ (∃ e, stop = StreamThrow e) →
  ws_sends (trace (run rt (pre ++ stop :: post) s)) = ws_sends (trace (run rt pre s)).
Proof.
  intros Hstop.
  destruct (run_app rt pre (stop :: post) s) as [Ht _].
  rewrite Ht, ws_sends_app, run_trace_cons, ws_sends_app.
  set (s1 := final (run rt pre s)).
  assert (Hstep : ws_sends (trace (step rt stop s1)) = []
                  ∧ downstream (final (step rt stop s1)) ≠ Running).
  { rewrite step_run. destruct Hstop as [-> | [e ->]];
      destruct (downstream s1) eqn:E; cbn; rewrite ?E; split;
      try reflexivity; discriminate. }
  destruct Hstep as [Hs Hd].
  rewrite Hs. destruct (run_not_running rt post _ Hd) as [Hs' _].
  rewrite Hs'. cbn [app]. apply app_nil_r.
Qed.

Lemma no_frame_after_stream_stops_witness :
  ws_sends (trace (run node22 ([StreamYield (text_response (utf16 "one"))]
                        ++ StreamThrow quota_error
                           :: [StreamYield (text_response (utf16 "two"))]) active))
  = ws_sends (trace (run node22 [StreamYield (text_response (utf16 "one"))] active)).
Proof.
  apply (no_frame_after_stream_stops node22 [StreamYield (text_response (utf16 "one"))]
           [StreamYield (text_response (utf16 "two"))] (StreamThrow quota_error) active).
  right. exists quota_error. reflexivity.
Defined.

(** X18.  A session logs at most one error after the connection handler
    has run, the one written by the [catch] of the reading loop, and none at
    all when the reading loop is not running. *)
Theorem stream_error_logged_once (rt : Runtime) (inputs : list Input) (s : Session) :
  (length (filter (λ e, is_console_error e = true) (trace (run rt inputs s))) ≤ 1)%nat
  ∧ (downstream s ≠ Running →
       filter (λ e, is_console_error e = true) (trace (run rt inputs s)) = []).
Proof.
  split; [|intros Hd; apply (run_not_running rt inputs s Hd)].
  revert s. induction inputs as [|i rest IH]; intros s; [cbn; lia|].
  rewrite run_trace_cons, filter_app, length_app.
  assert (Hcase : downstream s = Running ∨ downstream s ≠ Running)
    by (destruct (downstream s); [right; discriminate | left; reflexivity
                                  | right; discriminate]).
  destruct Hcase as [Hd|Hd].
  - rewrite step_run. destruct i as [m| |item| |e]; rewrite ?Hd.
    + cbn. apply IH.
    + specialize (IH (set_readyState WebSocket_CLOSED s)).
      destruct (close_listener s); cbn; exact IH.
    + destruct (carried_text item) as [t|]; [|cbn; apply IH].
      destruct (has_global_WebSocket rt).
      * specialize (IH s).
        destruct (readyState s =? WebSocket_OPEN)%Z; cbn; exact IH.
      * cbn [trace final fst snd].
        destruct (run_not_running rt rest (set_downstream Finished s)) as [_ He];
          [discriminate|].
        rewrite He.
        change (filter (λ x, is_console_error x = true)
                  [ConsoleError (utf16 "Geminiストリーム受信エラー:")
                     (Some (ReferenceError "WebSocket is not defined"))])
          with [ConsoleError (utf16 "Geminiストリーム受信エラー:")
                  (Some (ReferenceError "WebSocket is not defined"))].
        cbn [length]. lia.
    + cbn. apply IH.
    + cbn [trace final fst snd].
      destruct (run_not_running rt rest (set_downstream Finished s)) as [_ He];
        [discriminate|].
      rewrite He.
      change (filter (λ x, is_console_error x = true)
                [ConsoleError (utf16 "Geminiストリーム受信エラー:") (Some e)])
        with [ConsoleError (utf16 "Geminiストリーム受信エラー:") (Some e)].
      cbn [length]. lia.
  - destruct (step_not_running rt i s Hd) as (Hd' & _ & He).
    rewrite He. cbn. apply IH.
Qed.

(** X19.  Frames from the browser have no influence on a session: with
    them removed from the events, the handler performs the same effects and
    ends in the same state. *)
Theorem browser_frames_do_not_interfere (rt : Runtime) (inputs : list Input) (s : Session) :
  run rt inputs s = run rt (drop_frames inputs) s.
Proof.
  revert s. induction inputs as [|i rest IH]; intros s; [reflexivity|].
  unfold drop_frames. rewrite filter_cons. fold (drop_frames rest).
  destruct i as [m| |item| |e]; cbn [is_frame].
  - rewrite decide_False by discriminate. rewrite run_frame. apply IH.
  - rewrite decide_True by reflexivity. rewrite !run_cons, IH. reflexivity.
  - rewrite decide_True by reflexivity. rewrite !run_cons, IH. reflexivity.
  - rewrite decide_True by reflexivity. rewrite !run_cons, IH. reflexivity.
  - rewrite decide_True by reflexivity. rewrite !run_cons, IH. reflexivity.
Qed.

(** ** The frames on the wire *)

Section FrameFacts.

Lemma hex_digit_printable (n : N) : 0x20 ≤ hex_digit n.
Proof. unfold hex_digit. destruct (n <? 10); lia. Qed.

Lemma unicode_escape_printable (c : N) : Forall (λ u, 0x20 ≤ u) (unicode_escape c).
Proof.
  unfold unicode_escape.
  repeat (apply Forall_cons; split; [first [apply hex_digit_printable | lia]|]).
  apply Forall_nil_2.
Qed.

Lemma quote_unit_printable (c : N) : Forall (λ u, 0x20 ≤ u) (quote_unit c).
Proof.
  unfold quote_unit.
  repeat match goal with
         | |- context [if (c =? ?k) then _ else _] => destruct (c =? k)
         end;
    try (repeat (apply Forall_cons; split; [lia|]); apply Forall_nil_2).
  destruct ((c <? 0x20) || is_low_surrogate c) eqn:E.
  - apply unicode_escape_printable.
  - apply orb_false_iff in E as [E _]. apply N.ltb_ge in E.
    apply Forall_cons. split; [exact E | apply Forall_nil_2].
Qed.

Lemma quote_units_printable (s : jsstring) : Forall (λ u, 0x20 ≤ u) (quote_units s).
Proof.
  assert (H : ∀ n s, (length s ≤ n)%nat → Forall (λ u, 0x20 ≤ u) (quote_units s)).
  { intros n. induction n as [|n IH]; intros [|c rest] Hlen; cbn [quote_units];
      try apply Forall_nil_2; cbn [length] in Hlen; [lia|].
    destruct (is_high_surrogate c) eqn:Hh.
    - unfold is_high_surrogate in Hh. apply andb_true_iff in Hh as [Hh _].
      apply N.leb_le in Hh.
      destruct rest as [|d rest'].
      + apply unicode_escape_printable.
      + destruct (is_low_surrogate d) eqn:Hl.
        * unfold is_low_surrogate in Hl. apply andb_true_iff in Hl as [Hl _].
          apply N.leb_le in Hl.
          apply Forall_cons. split; [lia|]. apply Forall_cons. split; [lia|].
          apply IH. cbn [length] in Hlen. lia.
        * apply Forall_app. split; [apply unicode_escape_printable|].
          apply IH. lia.
    - apply Forall_app. split; [apply quote_unit_printable|].
      apply IH. lia. }
  apply (H (length s)). lia.
Qed.

End FrameFacts.

(** X20.  A transcript frame is one line of printable text whatever the
    backend sent: no code unit of the frame is a control character, line
    breaks and other controls of the text being escaped by
    [JSON.stringify]. *)
Theorem frame_has_no_control_characters (rt : Runtime) (item : GenerateContentResponse) (s : Session)
    (data : JsValue) :
  WsSend data ∈ trace (step rt (StreamYield item) s) →
  Forall (λ u, 0x20 ≤ u) (frame_units data)
  ∧ ∃ u, data = JsString u.
Proof.
  intros Hin.
  destruct (step_send rt _ _ _ Hin) as (_ & _ & item' & t & _ & _ & ->).
  split; [|eexists; reflexivity].
  unfold transcript_frame, frame_units, QuoteJSONString.
  repeat (apply Forall_app; split);
    try apply quote_units_printable;
    try (vm_compute; repeat (apply Forall_cons; split; [discriminate|]); apply Forall_nil_2).
Qed.

Lemma frame_has_no_control_characters_witness :
  Forall (λ u, 0x20 ≤ u)
    (frame_units (transcript_frame [0x61; 0x0A; 0x62; 0x09])).
Proof.
  apply (frame_has_no_control_characters node22 (text_response [0x61; 0x0A; 0x62; 0x09]) active
           (transcript_frame [0x61; 0x0A; 0x62; 0x09])).
  vm_compute. apply list_elem_of_here.
Defined.

Lemma suggest_unanswered_iff_thrown_witness :
  trace (suggest (answering (utf16 "x")) JsNull tt) = []
  ∧ responses (trace (suggest (answering (utf16 "x")) JsUndefined tt)) = [].
Proof.
  split.
  - apply (proj2 (suggest_unanswered_iff_thrown (answering (utf16 "x")) JsNull)
             (TypeError "Cannot read properties of null (reading 'text')")).
    reflexivity.
  - apply (proj1 (suggest_unanswered_iff_thrown (answering (utf16 "x")) JsUndefined)).
    exists (TypeError "Cannot read properties of undefined (reading 'text')").
    reflexivity.
Defined.

Lemma stream_error_logged_once_witness :
  filter (λ e, is_console_error e = true)
    (trace (run node22 [StreamThrow quota_error; BrowserClose]
              (final (on_connection (rejecting quota_error) accepted)))) = [].
Proof.
  apply (stream_error_logged_once node22 [StreamThrow quota_error; BrowserClose]
           (final (on_connection (rejecting quota_error) accepted))).
  vm_compute. discriminate.
Defined.

(** X21.  On a runtime that defines the global [WebSocket], the transcript
    items of a session reach the browser as frames
    [{"type":"transcript","data": <text>}] in the order of emission: on an
    open socket the frames sent are exactly those of the items that carry
    text, in order.  On every runtime the frames sent are a subsequence of
    them in the same order, and a frame is sent only in a state in which the
    socket is open. *)
Theorem transcripts_sent_in_order (rt : Runtime) (s : Session) :
  (∀ items : list GenerateContentResponse,
     has_global_WebSocket rt = true →
     downstream s = Running → readyState s = WebSocket_OPEN →
     ws_sends (trace (run rt (map StreamYield items) s))
     = map transcript_frame (omap carried_text items))
  ∧ (∀ inputs : list Input,
       sublist (ws_sends (trace (run rt inputs s)))
               (map transcript_frame (omap carried_text (yielded inputs))))
  ∧ (∀ (i : Input) (d : JsValue),
       WsSend d ∈ trace (step rt i s) → readyState s = WebSocket_OPEN).
Proof.
  split; [|split].
  - intros items. apply run_yields.
  - intros inputs. apply run_sends_sublist.
  - intros i d H. apply (step_send rt i s d H).
Qed.

Lemma transcripts_sent_in_order_witness :
  ws_sends (trace (run node22 [StreamYield (text_response (utf16 "こんにちは"));
                               StreamYield empty_item;
                               StreamYield (text_response (utf16 "today"))] active))
  = [transcript_frame (utf16 "こんにちは"); transcript_frame (utf16 "today")]
  ∧ readyState active = WebSocket_OPEN.
Proof.
  destruct (transcripts_sent_in_order node22 active) as (Hall & _ & Hopen).
  split.
  - apply (Hall [text_response (utf16 "こんにちは"); empty_item;
                 text_response (utf16 "today")]).
    + reflexivity.
    + vm_compute. reflexivity.
    + vm_compute. reflexivity.
  - apply (Hopen (StreamYield (text_response (utf16 "today")))
             (transcript_frame (utf16 "today"))).
    vm_compute. apply list_elem_of_here.
Defined.

(** X22.  Whenever [req.body] is defined, be it an object, an array or a
    primitive value, a body that lacks the field [text] or has it empty is
    answered with HTTP 400 and body [{"error":"No text"}], and the backend
    is not called. *)
Theorem suggest_rejects_missing_text (backend : Backend) (body : JsValue) :
  body ≠ JsUndefined → body ≠ JsNull →
  (∀ props, body = JsObject props →
     own_property (utf16 "text") props = None
     ∨ own_property (utf16 "text") props = Some (JsString [])) →
  responses (trace (suggest backend body tt))
  = [(400%Z, JsObject [(utf16 "error", JsString (utf16 "No text"))])]
  ∧ backend_calls (trace (suggest backend body tt)) = []
  ∧ completion (suggest backend body tt) = Normal tt.
Proof.
  intros Hu Hn Hobj.
  assert (Hrun : suggest backend body tt = rejected_run).
  { destruct body as [| |b|x|t|elems|props]; try contradiction;
      try (apply (suggest_falsy backend _ JsUndefined); reflexivity).
    destruct (Hobj props eq_refl) as [H|H].
    - apply (suggest_falsy backend _ JsUndefined); [cbn; rewrite H|]; reflexivity.
    - apply (suggest_falsy backend _ (JsString [])); [cbn; rewrite H|]; reflexivity. }
  rewrite Hrun. split; [apply rejected_run_observed|].
  split; [apply rejected_run_observed | reflexivity].
Qed.

Lemma suggest_rejects_missing_text_witness :
  responses (trace (suggest (answering (utf16 "x"))
                      (JsObject [(utf16 "note", JsString (utf16 "hello"))]) tt))
  = [(400%Z, JsObject [(utf16 "error", JsString (utf16 "No text"))])]
  ∧ backend_calls (trace (suggest (answering (utf16 "x"))
                            (JsArray [JsString (utf16 "text")]) tt)) = [].
Proof.
  split.
  - apply (suggest_rejects_missing_text (answering (utf16 "x"))
             (JsObject [(utf16 "note", JsString (utf16 "hello"))])).
    + discriminate.
    + discriminate.
    + intros props [= <-]. left. vm_compute. reflexivity.
  - apply (suggest_rejects_missing_text (answering (utf16 "x"))
             (JsArray [JsString (utf16 "text")])).
    + discriminate.
    + discriminate.
    + intros props [=].
Defined.
